(** * Verification of the MongoDB data source front end ([src/datasource.ts])

    The development embeds the methods of the [DataSource] class:
    [applyTemplateVariables], [replaceCustomFunctions], [timeToObjectId],
    [query] and [metricFindQuery], together with the parts of the JavaScript
    run time they rely on (strings, the regular expression of the time
    macros, [Date.prototype.toISOString], object spread, promises over an
    observable). *)

From Stdlib Require Import ZArith NArith Lia List Ascii String.
From stdpp Require Import gmap strings list.
Import ListNotations.

Local Open Scope Z_scope.

(** ** JavaScript strings

    A JavaScript string is a sequence of UTF-16 code units.  Regular
    expressions without the [u] flag work on code units, so the text handled
    by the expander is a list of code units. *)

Definition code_unit := N.
Definition str := list code_unit.

(** A literal of the source, written as a Rocq string of ASCII characters. *)
Fixpoint lit (s : string) : str :=
  match s with
  | EmptyString => []
  | String a s' => N_of_ascii a :: lit s'
  end.

(** ** Errors and fallible computations *)

Inductive js_error :=
| TypeError (msg : str)
| RangeError (msg : str)
| Error (msg : str)
| EmptyError.

Inductive result (A : Type) :=
| Ok (a : A)
| Throw (e : js_error).
Arguments Ok {A} a.
Arguments Throw {A} e.

Definition bind {A B} (m : result A) (f : A -> result B) : result B :=
  match m with
  | Ok a => f a
  | Throw e => Throw e
  end.

Definition rmap {A B} (f : A -> B) (m : result A) : result B :=
  bind m (fun a => Ok (f a)).

Declare Scope js_scope.
Delimit Scope js_scope with js.
Notation "'let*' x := m 'in' k" := (bind m (fun x => k))
  (at level 10, x name, m at level 100, k at level 200) : js_scope.
Local Open Scope js_scope.

(** ** Regular expressions

    A backtracking matcher in continuation-passing style, with the priorities
    of ECMAScript: alternatives are tried left to right, quantifiers are
    greedy, and a continuation that fails sends the matcher back to the
    latest choice point. *)

(** [\s] of ECMAScript: WhiteSpace and LineTerminator code points. *)
Definition is_space (c : code_unit) : bool :=
  ((9 <=? c) && (c <=? 13) || (c =? 32) || (c =? 160) || (c =? 5760)
   || (8192 <=? c) && (c <=? 8202) || (c =? 8232) || (c =? 8233)
   || (c =? 8239) || (c =? 8287) || (c =? 12288) || (c =? 65279))%N.

Definition brace_open : code_unit := 123%N.
Definition brace_close : code_unit := 125%N.
Definition colon : code_unit := 58%N.

(** The class [[^\s\}]]. *)
Definition spec_char (c : code_unit) : bool :=
  negb (is_space c) && negb (c =? brace_close)%N.

Inductive regex :=
| Eps
| Lit (c : code_unit)
| Seq (r1 r2 : regex)
| Alt (r1 r2 : regex)
| Star (p : code_unit -> bool)
| Plus (p : code_unit -> bool)
| Opt (r : regex)
| Group (i : nat) (r : regex).

Abbreviation captures := (gmap nat str).

(** Greedy iteration of a character class: take as many characters as
    possible, give back one at a time while the continuation fails. *)
Fixpoint star {R} (p : code_unit -> bool) (s : str) (k : str -> option R)
  : option R :=
  match s with
  | c :: s' =>
      if p c then
        match star p s' k with
        | Some r => Some r
        | None => k s
        end
      else k s
  | [] => k s
  end.

Fixpoint rmatch {R} (r : regex) (s : str) (caps : captures)
  (k : str -> captures -> option R) : option R :=
  match r with
  | Eps => k s caps
  | Lit c =>
      match s with
      | c' :: s' => if (c =? c')%N then k s' caps else None
      | [] => None
      end
  | Seq r1 r2 => rmatch r1 s caps (fun s' caps' => rmatch r2 s' caps' k)
  | Alt r1 r2 =>
      match rmatch r1 s caps k with
      | Some x => Some x
      | None => rmatch r2 s caps k
      end
  | Star p => star p s (fun s' => k s' caps)
  | Plus p =>
      match s with
      | c :: s' => if p c then star p s' (fun s'' => k s'' caps) else None
      | [] => None
      end
  | Opt r =>
      match rmatch r s caps k with
      | Some x => Some x
      | None => k s caps
      end
  | Group i r =>
      rmatch r s caps
        (fun s' caps' =>
           k s' (<[i := take (length s - length s') s]> caps'))
  end.

Fixpoint lits (l : str) : regex :=
  match l with
  | [] => Eps
  | c :: l' => Seq (Lit c) (lits l')
  end.

(** One attempt of the regular expression at the start of [s]: the length of
    the match and the capture groups. *)
Definition regex_exec (r : regex) (s : str) : option (nat * captures) :=
  rmatch r s ∅ (fun s' caps => Some ((length s - length s')%nat, caps)).

(** [String.prototype.replace] with a global regular expression and a
    replacer function: the matches are found from left to right without
    overlap, every match is replaced by the replacer's result and the text
    between matches is copied.  [skip] counts the characters of the current
    match that are still to be passed over. *)
Fixpoint replace_from (r : regex) (f : str -> captures -> result str)
  (skip : nat) (s : str) : result str :=
  match s with
  | [] =>
      match skip, regex_exec r [] with
      | O, Some (_, caps) => f [] caps
      | _, _ => Ok []
      end
  | c :: s' =>
      match skip with
      | S n => replace_from r f n s'
      | O =>
          match regex_exec r s with
          | Some (O, caps) =>
              let* v := f [] caps in
              let* out := replace_from r f O s' in
              Ok (v ++ c :: out)
          | Some (S n, caps) =>
              let* v := f (take (S n) s) caps in
              let* out := replace_from r f n s' in
              Ok (v ++ out)
          | None =>
              let* out := replace_from r f O s' in
              Ok (c :: out)
          end
      end
  end.

Definition String_replace (s : str) (r : regex)
  (f : str -> captures -> result str) : result str :=
  replace_from r f O s.

(** What the replacement has put out when it arrives at position [n] of
    [s], with [skip] characters of the current match still to pass over;
    [None] when position [n] lies inside a match, where the replacement
    never looks for a match. *)
Fixpoint replace_upto (r : regex) (f : str -> captures -> result str)
  (skip n : nat) (s : str) : option (result str) :=
  match n with
  | O =>
      match skip with
      | O => Some (Ok [])
      | S _ => None
      end
  | S n' =>
      match s with
      | [] => None
      | c :: s' =>
          match skip with
          | S k => replace_upto r f k n' s'
          | O =>
              match regex_exec r s with
              | Some (O, caps) =>
                  match replace_upto r f O n' s' with
                  | Some o =>
                      Some (let* v := f [] caps in
                            let* out := o in
                            Ok (v ++ c :: out))
                  | None => None
                  end
              | Some (S m, caps) =>
                  match replace_upto r f m n' s' with
                  | Some o =>
                      Some (let* v := f (take (S m) s) caps in
                            let* out := o in
                            Ok (v ++ out))
                  | None => None
                  end
              | None =>
                  match replace_upto r f O n' s' with
                  | Some o => Some (let* out := o in Ok (c :: out))
                  | None => None
                  end
              end
          end
      end
  end.

(** ** Numbers and their string renderings *)

Definition digit_char (d : Z) : code_unit :=
  if d <? 10 then Z.to_N (48 + d) else Z.to_N (87 + d).

(** Digits of a non-negative integer, most significant first. *)
Fixpoint digits_fuel (fuel : nat) (radix n : Z) (acc : str) : str :=
  match fuel with
  | O => digit_char (n mod radix) :: acc
  | S fuel' =>
      if n <? radix then digit_char n :: acc
      else digits_fuel fuel' radix (n / radix) (digit_char (n mod radix) :: acc)
  end.

(** [Number.prototype.toString(radix)] on an integer value below 1e21, which
    is written without an exponent.  The binary logarithm bounds the number
    of digits in every radix. *)
Definition Number_toString (radix n : Z) : str :=
  if n <? 0
  then 45%N :: digits_fuel (Z.to_nat (Z.log2 (- n))) radix (- n) []
  else digits_fuel (Z.to_nat (Z.log2 n)) radix n [].

(** [Math.floor(v / 1000)] for an integer time value [v].  A time value is an
    integer of magnitude at most 8.64e15, on which the rounded quotient and
    the exact one have the same floor. *)
Definition floor_div_1000 (v : Z) : Z := v / 1000.

(** ** Dates (ECMAScript, section "Date Objects") *)

Definition msPerDay : Z := 86400000.

(** A time value is an integer number of milliseconds within 100 000 000 days
    of the epoch. *)
Definition is_time_value (t : Z) : bool :=
  (-8640000000000000 <=? t) && (t <=? 8640000000000000).

Definition Day (t : Z) : Z := t / msPerDay.
Definition TimeWithinDay (t : Z) : Z := t mod msPerDay.

Definition is_leap (y : Z) : bool :=
  ((y mod 4 =? 0) && negb (y mod 100 =? 0)) || (y mod 400 =? 0).

Definition DaysInYear (y : Z) : Z := if is_leap y then 366 else 365.

Definition DayFromYear (y : Z) : Z :=
  365 * (y - 1970) + (y - 1969) / 4 - (y - 1901) / 100 + (y - 1601) / 400.

(** The largest [y] with [DayFromYear y <= Day t], found from the estimate
    given by the mean length of a year. *)
Definition YearFromDay (d : Z) : Z :=
  let y0 := 1970 + (400 * d) / 146097 in
  if DayFromYear (y0 + 1) <=? d then y0 + 1
  else if DayFromYear y0 <=? d then y0
  else y0 - 1.

Definition YearFromTime (t : Z) : Z := YearFromDay (Day t).

Definition DayWithinYear (t : Z) : Z := Day t - DayFromYear (YearFromTime t).

Definition InLeapYear (t : Z) : Z :=
  if is_leap (YearFromTime t) then 1 else 0.

(** Day of the year on which month [m] (0 = January) starts. *)
Definition month_start (leap m : Z) : Z :=
  match m with
  | 0 => 0
  | 1 => 31
  | 2 => 59 + leap
  | 3 => 90 + leap
  | 4 => 120 + leap
  | 5 => 151 + leap
  | 6 => 181 + leap
  | 7 => 212 + leap
  | 8 => 243 + leap
  | 9 => 273 + leap
  | 10 => 304 + leap
  | 11 => 334 + leap
  | _ => 365 + leap
  end.

Definition MonthFromTime (t : Z) : Z :=
  let d := DayWithinYear t in
  let l := InLeapYear t in
  if d <? 31 then 0
  else if d <? 59 + l then 1
  else if d <? 90 + l then 2
  else if d <? 120 + l then 3
  else if d <? 151 + l then 4
  else if d <? 181 + l then 5
  else if d <? 212 + l then 6
  else if d <? 243 + l then 7
  else if d <? 273 + l then 8
  else if d <? 304 + l then 9
  else if d <? 334 + l then 10
  else 11.

Definition DateFromTime (t : Z) : Z :=
  DayWithinYear t - month_start (InLeapYear t) (MonthFromTime t) + 1.

Definition HourFromTime (t : Z) : Z := (t / 3600000) mod 24.
Definition MinFromTime (t : Z) : Z := (t / 60000) mod 60.
Definition SecFromTime (t : Z) : Z := (t / 1000) mod 60.
Definition msFromTime (t : Z) : Z := t mod 1000.

(** [n] written with exactly [w] decimal digits. *)
Fixpoint pad_dec (w : nat) (n : Z) : str :=
  match w with
  | O => []
  | S w' => pad_dec w' (n / 10) ++ [digit_char (n mod 10)]
  end.

(** Years 0 to 9999 are written with four digits, the others with a sign and
    six digits. *)
Definition iso_year (y : Z) : str :=
  if (0 <=? y) && (y <=? 9999) then pad_dec 4 y
  else if y <? 0 then 45%N :: pad_dec 6 (- y)
  else 43%N :: pad_dec 6 y.

(** [Date.prototype.toISOString] of the date with time value [t]. *)
Definition toISOString (t : Z) : str :=
  iso_year (YearFromTime t) ++ lit "-" ++ pad_dec 2 (MonthFromTime t + 1)
  ++ lit "-" ++ pad_dec 2 (DateFromTime t)
  ++ lit "T" ++ pad_dec 2 (HourFromTime t)
  ++ lit ":" ++ pad_dec 2 (MinFromTime t)
  ++ lit ":" ++ pad_dec 2 (SecFromTime t)
  ++ lit "." ++ pad_dec 3 (msFromTime t) ++ lit "Z".

(** ** Reading a date back

    The complete UTC form of the ECMAScript date-time string format,
    [YYYY-MM-DDTHH:mm:ss.sssZ] with the year possibly expanded to a sign and
    six digits, as [Date.parse] reads it.  It is the reference against which
    the rendering is checked. *)

Definition digit_val (c : code_unit) : option Z :=
  if ((48 <=? c) && (c <=? 57))%N then Some (Z.of_N c - 48) else None.

Fixpoint read_dec (w : nat) (acc : Z) (s : str) : option (Z * str) :=
  match w with
  | O => Some (acc, s)
  | S w' =>
      match s with
      | c :: s' =>
          match digit_val c with
          | Some d => read_dec w' (10 * acc + d) s'
          | None => None
          end
      | [] => None
      end
  end.

Definition expect (c : code_unit) (s : str) : option str :=
  match s with
  | c' :: s' => if (c =? c')%N then Some s' else None
  | [] => None
  end.

(** The expanded year [-000000] is not a year. *)
Definition read_year (s : str) : option (Z * str) :=
  match s with
  | c :: s' =>
      if (c =? 43)%N then read_dec 6 0 s'
      else if (c =? 45)%N then
        match read_dec 6 0 s' with
        | Some (y, r) => if y =? 0 then None else Some (- y, r)
        | None => None
        end
      else read_dec 4 0 s
  | [] => None
  end.

Definition leap_days (y : Z) : Z := if is_leap y then 1 else 0.

Definition DaysInMonth (y m : Z) : Z :=
  month_start (leap_days y) (m + 1) - month_start (leap_days y) m.

Definition MakeDay (year month date : Z) : Z :=
  DayFromYear year + month_start (leap_days year) month + date - 1.

Definition MakeTime (hour min sec ms : Z) : Z :=
  hour * 3600000 + min * 60000 + sec * 1000 + ms.

Definition MakeDate (day time : Z) : Z := day * msPerDay + time.

Definition TimeClip (t : Z) : option Z :=
  if is_time_value t then Some t else None.

Definition in_range (lo hi x : Z) : bool := (lo <=? x) && (x <=? hi).

Definition Date_parse (s : str) : option Z :=
  '(year, s1) ← read_year s;
  s2 ← expect 45%N s1;
  '(month, s3) ← read_dec 2 0 s2;
  s4 ← expect 45%N s3;
  '(date, s5) ← read_dec 2 0 s4;
  s6 ← expect 84%N s5;
  '(hour, s7) ← read_dec 2 0 s6;
  s8 ← expect 58%N s7;
  '(min, s9) ← read_dec 2 0 s8;
  s10 ← expect 58%N s9;
  '(sec, s11) ← read_dec 2 0 s10;
  s12 ← expect 46%N s11;
  '(ms, s13) ← read_dec 3 0 s12;
  s14 ← expect 90%N s13;
  if bool_decide (s14 = [])
     && in_range 1 12 month
     && in_range 1 (DaysInMonth year (month - 1)) date
     && (in_range 0 23 hour && in_range 0 59 min && in_range 0 59 sec
         || (hour =? 24) && (min =? 0) && (sec =? 0) && (ms =? 0))
  then TimeClip (MakeDate (MakeDay year (month - 1) date)
                          (MakeTime hour min sec ms))
  else None.

(** The shape [YYYY-MM-DDTHH:mm:ss.sssZ]: digits, the separators of ISO 8601
    and the UTC designator; the year has four digits or a sign and six. *)
Definition is_digit (c : code_unit) : bool := ((48 <=? c) && (c <=? 57))%N.

Fixpoint shape (pat s : str) : bool :=
  match pat, s with
  | [], [] => true
  | p :: pat', c :: s' =>
      (if (p =? 100)%N then is_digit c else (p =? c)%N) && shape pat' s'
  | _, _ => false
  end.

Definition iso_shape (s : str) : bool :=
  shape (lit "dddd-dd-ddTdd:dd:dd.dddZ") s
  || shape (lit "+dddddd-dd-ddTdd:dd:dd.dddZ") s
  || shape (lit "-dddddd-dd-ddTdd:dd:dd.dddZ") s.

(** ** The time range of a request

    [from] and [to] are the numbers of milliseconds held by the two moments
    of the range.  A moment is valid when its number is a time value;
    [toDate] of a moment that is not valid is an invalid date, and so a
    number that is no time value stands for such a moment. *)
Record TimeRange := { from : Z; to : Z }.

(** ** Dates that may be invalid

    A date is written as the number of its moment.  [valueOf] is its time
    value, or [NaN] (written [None]) when the date is invalid. *)
Definition valueOf (date : Z) : option Z := TimeClip date.

(** [Math.floor(v / 1000)]; it is [NaN] on [NaN]. *)
Definition Math_floor_div_1000 (v : option Z) : option Z :=
  floor_div_1000 <$> v.

(** [Number.prototype.toString]; [NaN] is written [NaN] in every radix. *)
Definition number_toString (radix : Z) (v : option Z) : str :=
  match v with
  | Some n => Number_toString radix n
  | None => lit "NaN"
  end.

(** [Date.prototype.toISOString] throws a [RangeError] on an invalid
    date. *)
Definition Date_toISOString (date : Z) : result str :=
  match valueOf date with
  | Some t => Ok (toISOString t)
  | None => Throw (RangeError (lit "Invalid time value"))
  end.

(** ** The expander of time macros *)

(** [/\{\{\s*__(time_from|time_to):date(?::([^\s\}]+))?\s*\}\}/g] *)
Definition customFuncRegex : regex :=
  Seq (lits (lit "{{"))
 (Seq (Star is_space)
 (Seq (lits (lit "__"))
 (Seq (Group 1 (Alt (lits (lit "time_from")) (lits (lit "time_to"))))
 (Seq (lits (lit ":date"))
 (Seq (Opt (Seq (Lit colon) (Group 2 (Plus spec_char))))
 (Seq (Star is_space)
      (lits (lit "}}")))))))).

(** [timeToObjectId] on a date with time value [time]: the seconds of the
    time in base 16, followed by sixteen zeros. *)
Definition timeToObjectId (time : Z) : str :=
  let timestamp := Number_toString 16 (floor_div_1000 time) in
  timestamp ++ lit "0000000000000000".

(** [this.timeToObjectId(timeValue)] on a date that may be invalid: the
    seconds of an invalid date are [NaN], written [NaN]. *)
Definition this_timeToObjectId (date : Z) : str :=
  match valueOf date with
  | Some time => timeToObjectId time
  | None =>
      let timestamp := number_toString 16 (Math_floor_div_1000 None) in
      timestamp ++ lit "0000000000000000"
  end.

Section Expander.

(** [format] of date-fns: renders a date through a pattern in the local
    time zone, and throws on a pattern it does not accept.  The date is
    given as the number of its moment. *)
Variable format : Z -> str -> result str.

(** The replacer of [replaceCustomFunctions].  An absent time range makes
    the access to [timeRange.from] throw.  [timeValue] is the date of the
    selected moment, which may be invalid; [format] is given that date. *)
Definition replacer (timeRange : option TimeRange)
  (_match : str) (caps : captures) : result str :=
  let p1 := caps !! 1%nat in
  let p2 := caps !! 2%nat in
  let* timeValue :=
    match timeRange with
    | Some tr =>
        Ok (if bool_decide (p1 = Some (lit "time_from")) then from tr
            else to tr)
    | None => Throw (TypeError (lit "Cannot read properties of undefined"))
    end in
  match p2 with
  | None => Date_toISOString timeValue
  | Some p =>
      if bool_decide (p = []) || bool_decide (p = lit "iso")
      then Date_toISOString timeValue
      else if bool_decide (p = lit "toObjectId")
      then Ok (this_timeToObjectId timeValue)
      else if bool_decide (p = lit "seconds")
      then Ok (number_toString 10 (Math_floor_div_1000 (valueOf timeValue)))
      else if bool_decide (p = lit "milliseconds")
      then Ok (number_toString 10 (valueOf timeValue))
      else format timeValue p
  end.

Definition replaceCustomFunctions (aggregation : str)
  (timeRange : option TimeRange) : result str :=
  String_replace aggregation customFuncRegex (replacer timeRange).

End Expander.

(** ** Objects and the store

    An object is a finite map from property names to values, and objects
    live in a store: two references to the same location are the same
    object, and an assignment to a property is seen through both. *)

Definition loc := positive.

(** The values that the data source handles: primitives, arrays (never
    updated in place here), references to objects of the store, and the
    time range of the host with its two moments. *)
#[warnings="-register-all"] Inductive value :=
| VUndefined
| VNull
| VBool (b : bool)
| VNum (n : Z)
| VStr (s : str)
| VRange (r : TimeRange)
| VArr (vs : list value)
| VRef (l : loc).

Definition truthy (v : value) : bool :=
  match v with
  | VUndefined | VNull => false
  | VBool b => b
  | VNum n => negb (n =? 0)
  | VStr s => negb (bool_decide (s = []))
  | VRange _ | VArr _ | VRef _ => true
  end.

Abbreviation obj := (gmap string value).
Abbreviation heap := (gmap loc (gmap string value)).

(** [o.f]: a property that is not there reads as [undefined]. *)
Definition get (o : obj) (f : string) : value := default VUndefined (o !! f).

Definition obj_at (h : heap) (l : loc) : obj := default ∅ (h !! l).

(** A new object is put at a location that is not in use. *)
Definition alloc (o : obj) (h : heap) : loc * heap :=
  let l := fresh (dom h) in (l, <[l := o]> h).

(** [o.f = v] on the object at [l]. *)
Definition set_prop (l : loc) (f : string) (v : value) (h : heap) : heap :=
  <[l := <[f := v]> (obj_at h l)]> h.

(** ** Observables and promises

    An observable is seen through what it emits and how it ends; a stream
    that does not end is [Unfinished]. *)

Inductive termination :=
| Complete
| Errored (e : js_error)
| Unfinished.

Record Observable (A : Type) := { emitted : list A; ending : termination }.
Arguments emitted {A} _.
Arguments ending {A} _.
Arguments Build_Observable {A} emitted ending.

Inductive promise (A : Type) :=
| Fulfilled (a : A)
| Rejected (e : js_error)
| Pending.
Arguments Fulfilled {A} a.
Arguments Rejected {A} e.
Arguments Pending {A}.

(** [lastValueFrom] of rxjs: waits for the observable to complete and
    resolves with the last value emitted; an observable that completes
    without a value rejects with [EmptyError]. *)
Definition lastValueFrom {A} (o : Observable A) : promise A :=
  match ending o with
  | Complete =>
      match last (emitted o) with
      | Some a => Fulfilled a
      | None => Rejected EmptyError
      end
  | Errored e => Rejected e
  | Unfinished => Pending
  end.

(** [p.then(f)]: a handler that throws rejects the promise. *)
Definition promise_then {A B} (p : promise A) (f : A -> result B) : promise B :=
  match p with
  | Fulfilled a =>
      match f a with
      | Ok b => Fulfilled b
      | Throw e => Rejected e
      end
  | Rejected e => Rejected e
  | Pending => Pending
  end.

(** The response of the back end. *)
Record DataQueryError := { message : option str }.

Record DataQueryResponse (DataFrame : Type) :=
  { data : option (list DataFrame); error : option DataQueryError }.
Arguments data {DataFrame} _.
Arguments error {DataFrame} _.
Arguments Build_DataQueryResponse {DataFrame} data error.

(** [new Error(m).message]: an undefined message gives the empty string. *)
Definition Error_of (m : option str) : js_error := Error (default [] m).

(** ** The data source *)

Section DataSource.

(** Types of the host that the data source never looks into. *)
Variables DataFrame MetricFindValue : Type.

(** [getTemplateSrv().replace(target, scopedVars, format)]; the third
    argument is [true] for the ['json'] format. *)
Variable templateSrv_replace : value -> value -> bool -> str.

Variable format : Z -> str -> result str.

(** [super.query] of [DataSourceWithBackend]: the executor, which reads
    the request from the store. *)
Variable super_query : heap -> loc -> Observable (DataQueryResponse DataFrame).

Variable frameToMetricFindValue : DataFrame -> list MetricFindValue.

(** [MongoDBQueryType.Table] of [types.ts]. *)
Variable MongoDBQueryType_Table : value.

Definition applyTemplateVariables (query : loc) (scopedVars : value)
  (h : heap) : loc * heap :=
  let q := obj_at h query in
  let processedQuery :=
    <["aggregation" :=
        if truthy (get q "aggregation")
        then VStr (templateSrv_replace (get q "aggregation") scopedVars true)
        else VStr []]>
   (<["collection" :=
        if truthy (get q "collection")
        then VStr (templateSrv_replace (get q "collection") scopedVars false)
        else VStr []]>
   (<["database" :=
        if truthy (get q "database")
        then VStr (templateSrv_replace (get q "database") scopedVars false)
        else VStr []]> q)) in
  alloc processedQuery h.

(** The time range of a request, when it has one. *)
Definition range_of (v : value) : option TimeRange :=
  match v with
  | VRange r => Some r
  | _ => None
  end.

(** The body of the [map] in [query], for one target.  The targets of a
    request are objects; reading a property of anything else is rendered as
    the [TypeError] of reading one of [undefined]. *)
Definition process_target (timeRange : option TimeRange) (scopedVars : value)
  (target : value) (h : heap) : result (value * heap) :=
  match target with
  | VRef t =>
      let '(processedQuery, h1) := applyTemplateVariables t scopedVars h in
      match get (obj_at h1 processedQuery) "aggregation" with
      | VStr aggregation =>
          let* a := replaceCustomFunctions format aggregation timeRange in
          Ok (VRef processedQuery,
              set_prop processedQuery "aggregation" (VStr a) h1)
      | _ => Throw (TypeError (lit "aggregation.replace is not a function"))
      end
  | _ => Throw (TypeError (lit "Cannot read properties of undefined"))
  end.

Fixpoint process_targets (timeRange : option TimeRange) (scopedVars : value)
  (targets : list value) (h : heap) : result (list value * heap) :=
  match targets with
  | [] => Ok ([], h)
  | target :: rest =>
      let* r := process_target timeRange scopedVars target h in
      let* rs := process_targets timeRange scopedVars rest (snd r) in
      Ok (fst r :: fst rs, snd rs)
  end.

(** The request that [query] hands to the executor. *)
Definition query_request (request : loc) (h : heap) : result (loc * heap) :=
  let req := obj_at h request in
  let timeRange := range_of (get req "range") in
  match get req "targets" with
  | VArr targets =>
      let* r := process_targets timeRange (get req "scopedVars") targets h in
      let modifiedRequest := <["targets" := VArr (fst r)]> req in
      Ok (alloc modifiedRequest (snd r))
  | _ => Throw (TypeError (lit "Cannot read properties of undefined"))
  end.

Definition query (request : loc) (h : heap)
  : result (Observable (DataQueryResponse DataFrame)) :=
  let* r := query_request request h in
  Ok (super_query (snd r) (fst r)).

(** The synthetic target of [metricFindQuery]. *)
Definition metricFindQuery_target (q : obj) : obj :=
  <["schemaInferenceDepth" := VNum 0]>
 (<["schemaInference" := VBool false]>
 (<["autoTimeSort" := VBool false]>
 (<["autoTimeBound" := VBool false]>
 (<["aggregation" := get q "aggregation"]>
 (<["valueFieldTypes" := VArr [get q "fieldType"]]>
 (<["valueFields" := VArr [get q "fieldName"]]>
 (<["labelFields" := VArr []]>
 (<["timestampFormat" := VStr []]>
 (<["timestampField" := VStr []]>
 (<["queryType" := MongoDBQueryType_Table]>
 (<["collection" := get q "collection"]>
 (<["database" := get q "database"]>
 (<["refId" := VStr (lit "metricFindQuery")]> ∅))))))))))))).

(** [{...options, targets: [target]}]; the options are an object or are
    left out. *)
Definition metricFindQuery_request (query : loc) (options : option loc)
  (h : heap) : loc * heap :=
  let '(target, h1) := alloc (metricFindQuery_target (obj_at h query)) h in
  let spread :=
    match options with
    | Some o => obj_at h1 o
    | None => ∅
    end in
  let dataQuery := <["targets" := VArr [VRef target]]> spread in
  alloc dataQuery h1.

(** The handler given to [then] in [metricFindQuery]. *)
Definition metricFindQuery_then (rsp : DataQueryResponse DataFrame)
  : result (list MetricFindValue) :=
  match error rsp with
  | Some e => Throw (Error_of (message e))
  | None =>
      match data rsp with
      | Some (frame :: _) => Ok (frameToMetricFindValue frame)
      | _ => Ok []
      end
  end.

(** [this.query(dataQueryRequest)] on the request built from the
    arguments. *)
Definition metricFindQuery_stream (q : loc) (options : option loc)
  (h : heap) : result (Observable (DataQueryResponse DataFrame)) :=
  let '(dataQueryRequest, h1) := metricFindQuery_request q options h in
  query dataQueryRequest h1.

(** An [async] method: what is thrown before the promise of
    [lastValueFrom] exists rejects the promise that is returned. *)
Definition metricFindQuery (q : loc) (options : option loc) (h : heap)
  : promise (list MetricFindValue) :=
  match metricFindQuery_stream q options h with
  | Ok stream => promise_then (lastValueFrom stream) metricFindQuery_then
  | Throw e => Rejected e
  end.

End DataSource.

Definition no_format (_ : Z) (_ : str) : result str :=
  Throw (RangeError (lit "Invalid format string")).

(** ** The grammar of the time macros

    The macros of the documentation, as texts: [{{], white space, [__] and
    the selector, [:date], possibly [:] and a format specifier, white space,
    [}}]. *)

Inductive selector := TimeFrom | TimeTo.

Definition selector_text (k : selector) : str :=
  match k with
  | TimeFrom => lit "time_from"
  | TimeTo => lit "time_to"
  end.

Definition spec_text (spec : option str) : str :=
  match spec with
  | Some p => colon :: p
  | None => []
  end.

Definition macro_text (ws1 : str) (k : selector) (spec : option str)
  (ws2 : str) : str :=
  lit "{{" ++ ws1 ++ lit "__" ++ selector_text k ++ lit ":date"
  ++ spec_text spec ++ ws2 ++ lit "}}".

(** A format specifier is a non-empty run of characters that are neither
    white space nor a closing brace. *)
Definition is_spec (p : str) : bool :=
  negb (bool_decide (p = [])) && forallb spec_char p.

Definition wf_spec (spec : option str) : bool :=
  match spec with
  | Some p => is_spec p
  | None => true
  end.

Definition all_space (ws : str) : bool := forallb is_space ws.

(** The capture groups of a match of a macro. *)
Definition macro_caps (k : selector) (spec : option str) : captures :=
  match spec with
  | Some p => <[2%nat := p]> (<[1%nat := selector_text k]> ∅)
  | None => <[1%nat := selector_text k]> ∅
  end.

(** The beginning of a macro, up to the selector. *)
Definition macro_open (ws : str) (k : selector) : str :=
  lit "{{" ++ ws ++ lit "__" ++ selector_text k.

(** The time of the range that a selector stands for. *)
Definition bound (k : selector) (tr : TimeRange) : Z :=
  match k with
  | TimeFrom => from tr
  | TimeTo => to tr
  end.

(** Whether the text cannot continue a format specifier. *)
Definition no_spec_start (s : str) : bool :=
  match s with
  | c :: _ => negb (spec_char c)
  | [] => true
  end.

Definition is_None {A} (o : option A) : bool :=
  match o with
  | None => true
  | Some _ => false
  end.

(** No match of the regular expression starts within the first [n]
    characters of [s]. *)
Fixpoint no_match_before (n : nat) (s : str) : bool :=
  match n, s with
  | S n', _ :: s' =>
      is_None (regex_exec customFuncRegex s) && no_match_before n' s'
  | _, _ => true
  end.

(** No two opening braces in a row. *)
Fixpoint no_double_open (s : str) : bool :=
  match s with
  | a :: s' =>
      match s' with
      | b :: _ => negb ((brace_open =? a)%N && (brace_open =? b)%N)
      | [] => true
      end && no_double_open s'
  | [] => true
  end.


(** Whether [s] starts with [p]. *)
Fixpoint starts_with (p s : str) : bool :=
  match p, s with
  | [], _ => true
  | a :: p', b :: s' => (a =? b)%N && starts_with p' s'
  | _ :: _, [] => false
  end.

(** ** Reading numbers back

    The value of a run of digits in a radix up to 36, with the digits above
    nine written in lower case as [Number.prototype.toString] writes them,
    and of an integer with an optional minus sign. *)

Definition digit_of (radix : Z) (c : code_unit) : option Z :=
  let v :=
    if ((48 <=? c) && (c <=? 57))%N then Z.of_N c - 48
    else if ((97 <=? c) && (c <=? 122))%N then Z.of_N c - 87
    else radix in
  if v <? radix then Some v else None.

Fixpoint read_digits (radix acc : Z) (s : str) : option Z :=
  match s with
  | [] => Some acc
  | c :: s' =>
      match digit_of radix c with
      | Some d => read_digits radix (acc * radix + d) s'
      | None => None
      end
  end.

Definition parse_int (radix : Z) (s : str) : option Z :=
  match s with
  | [] => None
  | c :: s' =>
      if (c =? 45)%N then
        match s' with
        | [] => None
        | _ :: _ => Z.opp <$> read_digits radix 0 s'
        end
      else read_digits radix 0 s
  end.

(** ** Texts made of plain pieces and macros *)

Inductive piece :=
| Plain (s : str)
| Macro (ws1 : str) (k : selector) (spec : option str) (ws2 : str).

Definition piece_text (p : piece) : str :=
  match p with
  | Plain s => s
  | Macro ws1 k spec ws2 => macro_text ws1 k spec ws2
  end.

Definition pieces_text (ps : list piece) : str := concat (map piece_text ps).

(** The plain pieces have no two opening braces in a row and are separated
    by macros; the macros are well formed. *)
Fixpoint wf_pieces (ps : list piece) : bool :=
  match ps with
  | [] => true
  | Plain s :: rest =>
      no_double_open s
      && match rest with
         | Plain _ :: _ => false
         | _ => true
         end
      && wf_pieces rest
  | Macro ws1 _ spec ws2 :: rest =>
      all_space ws1 && wf_spec spec && all_space ws2 && wf_pieces rest
  end.

(** What the pieces of a text expand to, one after the other. *)
Fixpoint expand_pieces (format : Z -> str -> result str)
  (timeRange : option TimeRange) (ps : list piece) : result str :=
  match ps with
  | [] => Ok []
  | Plain s :: rest =>
      let* out := expand_pieces format timeRange rest in Ok (s ++ out)
  | Macro ws1 k spec ws2 :: rest =>
      let* v := replacer format timeRange (macro_text ws1 k spec ws2)
                  (macro_caps k spec) in
      let* out := expand_pieces format timeRange rest in
      Ok (v ++ out)
  end.

Definition is_keyword (p : str) : bool :=
  bool_decide (p = lit "iso") || bool_decide (p = lit "toObjectId")
  || bool_decide (p = lit "seconds") || bool_decide (p = lit "milliseconds").

(** ** The fields that the data source rewrites *)

(** The text that [applyTemplateVariables] puts in field [f]: the field
    after the substitution of the variables, or the empty string when the
    field is not there or is empty. *)
Definition substituted (templateSrv_replace : value -> value -> bool -> str)
  (q : obj) (scopedVars : value) (f : string) (json : bool) : str :=
  if truthy (get q f) then templateSrv_replace (get q f) scopedVars json
  else [].

(** The object that [applyTemplateVariables] makes of the query [q]. *)
Definition template_fields
  (templateSrv_replace : value -> value -> bool -> str)
  (q : obj) (scopedVars : value) : obj :=
  <["aggregation" :=
      VStr (substituted templateSrv_replace q scopedVars "aggregation" true)]>
 (<["collection" :=
      VStr (substituted templateSrv_replace q scopedVars "collection" false)]>
 (<["database" :=
      VStr (substituted templateSrv_replace q scopedVars "database" false)]>
    q)).

(** What [{...options}] spreads. *)
Definition options_object (h : heap) (options : option loc) : obj :=
  match options with
  | Some o => obj_at h o
  | None => ∅
  end.

(** A reference points to an object of the store. *)
Definition allocated (h : heap) (v : value) : Prop :=
  match v with
  | VRef l => is_Some (h !! l)
  | _ => True
  end.

(** [p] is what [query] makes of the target [t] of a request with the given
    time range and scoped variables: a new object with the fields of [t],
    the three text fields after the substitution of the variables, and the
    aggregation after the expansion of the macros as well. *)
Definition rewritten_target
  (templateSrv_replace : value -> value -> bool -> str)
  (format : Z -> str -> result str) (timeRange : option TimeRange)
  (scopedVars : value) (h h' : heap) (t p : value) : Prop :=
  exists lt lp a,
    t = VRef lt /\ p = VRef lp /\ h !! lp = None
    /\ replaceCustomFunctions format
         (substituted templateSrv_replace (obj_at h lt) scopedVars
            "aggregation" true) timeRange = Ok a
    /\ h' !! lp
       = Some (<["aggregation" := VStr a]>
                 (template_fields templateSrv_replace (obj_at h lt)
                    scopedVars)).

(** The expansion of the aggregation of the target [t] throws. *)
Definition target_throws
  (templateSrv_replace : value -> value -> bool -> str)
  (format : Z -> str -> result str) (timeRange : option TimeRange)
  (scopedVars : value) (h : heap) (t : value) : Prop :=
  match t with
  | VRef lt =>
      exists e,
        replaceCustomFunctions format
          (substituted templateSrv_replace (obj_at h lt) scopedVars
             "aggregation" true) timeRange = Throw e
  | _ => True
  end.

(** ** Auxiliary notions of the proofs *)

(** What stops a greedy iteration of the class [p]. *)
Definition stops (p : code_unit -> bool) (s : str) : Prop :=
  match s with
  | c :: _ => p c = false
  | [] => True
  end.

(** The parts of the regular expression after [:date]. *)
Definition re_tail : regex := Seq (Star is_space) (lits (lit "}}")).
Definition re_spec : regex := Opt (Seq (Lit colon) (Group 2 (Plus spec_char))).
Definition re_selector : regex :=
  Group 1 (Alt (lits (lit "time_from")) (lits (lit "time_to"))).

Definition not_open (c : code_unit) : bool := negb (brace_open =? c)%N.

(** [n] written with exactly [w] digits in base 16. *)
Fixpoint pad_hex (w : nat) (n : Z) : str :=
  match w with
  | O => []
  | S w' => pad_hex w' (n / 16) ++ [digit_char (n mod 16)]
  end.

(** ** Concrete inputs *)

Definition demo_replace (target _ : value) (_ : bool) : str :=
  match target with
  | VStr s => s
  | _ => []
  end.

Definition demo_frames (n : nat) : list nat := [n].

Definition demo_table : value := VStr (lit "table").

Definition demo_query : obj :=
  <["fieldType" := VStr (lit "string")]>
 (<["fieldName" := VStr (lit "name")]>
 (<["aggregation" := VStr (lit "[{ $match: { ts: { $gte: {{__time_from}} } } }]")]>
 (<["collection" := VStr (lit "events")]>
 (<["database" := VStr (lit "logs")]> ∅)))).

Definition demo_heap : heap := {[ 1%positive := demo_query ]}.

Definition rsp_frames (frames : list nat) : DataQueryResponse nat :=
  {| data := Some frames; error := None |}.

Definition rsp_error (m : str) : DataQueryResponse nat :=
  {| data := None; error := Some {| message := Some m |} |}.

Definition demo_executor (s : Observable (DataQueryResponse nat))
  (_ : heap) (_ : loc) : Observable (DataQueryResponse nat) := s.

Definition demo_run (s : Observable (DataQueryResponse nat))
  : promise (list nat) :=
  metricFindQuery nat nat demo_replace no_format (demo_executor s) demo_frames
    demo_table 1%positive None demo_heap.

(** A formatter that accepts every pattern. *)
Definition any_format (_ : Z) (_ : str) : result str := Ok (lit "formatted").

Definition tr2021 : TimeRange :=
  {| from := 1609459200000; to := 1609545600123 |}.

Definition stream_empty : Observable (DataQueryResponse nat) :=
  {| emitted := [rsp_frames [7%nat]; rsp_frames []]; ending := Complete |}.

Definition stream_error : Observable (DataQueryResponse nat) :=
  {| emitted := [rsp_frames [7%nat]; rsp_error (lit "boom")];
     ending := Complete |}.

Definition demo_target : obj :=
  <["refId" := VStr (lit "A")]> (<["database" := VStr (lit "logs")]> ∅).

Definition demo_targets : heap := {[ 1%positive := demo_target ]}.

(** A request with one target and a time range, and one without a range. *)
Definition demo_macro_target : obj :=
  <["aggregation" := VStr (lit "{{__time_from:date:seconds}}")]>
 (<["database" := VStr (lit "logs")]>
 (<["refId" := VStr (lit "A")]> ∅)).

Definition demo_request : obj :=
  <["requestId" := VStr (lit "Q100")]>
 (<["range" := VRange tr2021]>
 (<["targets" := VArr [VRef 1%positive]]> ∅)).

Definition demo_request_no_range : obj :=
  <["targets" := VArr [VRef 1%positive]]> ∅.

Definition demo_requests : heap :=
  <[3%positive := demo_request_no_range]>
 (<[2%positive := demo_request]> {[ 1%positive := demo_macro_target ]}).

Definition demo_rewritten : loc * heap :=
  match query_request demo_replace no_format 2%positive demo_requests with
  | Ok r => r
  | Throw _ => (1%positive, ∅)
  end.

Definition demo_variable_query : obj :=
  <["fieldType" := VStr (lit "string")]>
 (<["fieldName" := VStr (lit "name")]>
 (<["aggregation" := VStr (lit "[{$match: {ts: {{__time_to:date}} }}]")]>
 (<["collection" := VStr (lit "events")]>
 (<["database" := VStr (lit "logs")]> ∅)))).

Definition demo_options : obj := <["range" := VRange tr2021]> ∅.

Definition demo_variables : heap :=
  <[2%positive := demo_options]> {[ 1%positive := demo_variable_query ]}.

Definition stream_two_frames : Observable (DataQueryResponse nat) :=
  {| emitted := [rsp_error (lit "boom"); rsp_frames [7%nat; 8%nat]];
     ending := Complete |}.

Definition stream_broken : Observable (DataQueryResponse nat) :=
  {| emitted := [rsp_frames [7%nat]];
     ending := Errored (Error (lit "connection lost")) |}.

(** * Properties *)

(** ** The calendar *)

Ltac div_lia := Z.div_mod_to_equations; lia.

(** [YearFromDay] is the year of ECMAScript: the largest [y] whose first day
    is not after [d]. *)
Lemma YearFromDay_spec d :
  DayFromYear (YearFromDay d) <= d < DayFromYear (YearFromDay d + 1).
Proof.
  unfold YearFromDay.
  destruct (Z.leb_spec (DayFromYear (1970 + 400 * d / 146097 + 1)) d) as [H1|H1];
    [|destruct (Z.leb_spec (DayFromYear (1970 + 400 * d / 146097)) d) as [H2|H2]];
    unfold DayFromYear in *; div_lia.
Qed.

Lemma DayFromYear_succ y : DayFromYear (y + 1) = DayFromYear y + DaysInYear y.
Proof.
  unfold DayFromYear, DaysInYear, is_leap.
  destruct (Z.eqb_spec (y mod 4) 0), (Z.eqb_spec (y mod 100) 0),
    (Z.eqb_spec (y mod 400) 0); simpl; div_lia.
Qed.

Lemma DayFromYear_mono y1 y2 : y1 <= y2 -> DayFromYear y1 <= DayFromYear y2.
Proof. unfold DayFromYear. intros. div_lia. Qed.

Lemma YearFromDay_largest d y : DayFromYear y <= d -> y <= YearFromDay d.
Proof.
  intros Hy. destruct (Z.le_gt_cases y (YearFromDay d)) as [|Hlt]; [done|].
  pose proof (YearFromDay_spec d) as [_ Hup].
  pose proof (DayFromYear_mono (YearFromDay d + 1) y). lia.
Qed.

Lemma DayWithinYear_range t :
  0 <= DayWithinYear t < DaysInYear (YearFromTime t).
Proof.
  unfold DayWithinYear, YearFromTime.
  pose proof (YearFromDay_spec (Day t)) as H.
  rewrite DayFromYear_succ in H. lia.
Qed.

Lemma InLeapYear_leap_days t : InLeapYear t = leap_days (YearFromTime t).
Proof. reflexivity. Qed.

Lemma DaysInYear_leap_days y : DaysInYear y = 365 + leap_days y.
Proof. unfold DaysInYear, leap_days. by destruct (is_leap y). Qed.

Lemma leap_days_range y : 0 <= leap_days y <= 1.
Proof. unfold leap_days. destruct (is_leap y); lia. Qed.

Ltac month_cases :=
  repeat match goal with
    | |- context [if ?a <? ?b then _ else _] =>
        destruct (Z.ltb_spec a b)
    end.

Lemma MonthFromTime_range t : 0 <= MonthFromTime t <= 11.
Proof. unfold MonthFromTime. month_cases; lia. Qed.

Lemma DateFromTime_range t :
  1 <= DateFromTime t
  <= DaysInMonth (YearFromTime t) (MonthFromTime t).
Proof.
  pose proof (DayWithinYear_range t) as Hd.
  rewrite DaysInYear_leap_days in Hd.
  pose proof (leap_days_range (YearFromTime t)) as Hl.
  unfold DateFromTime, DaysInMonth, MonthFromTime.
  rewrite InLeapYear_leap_days.
  month_cases; simpl; lia.
Qed.

Lemma MakeDay_of_time t :
  MakeDay (YearFromTime t) (MonthFromTime t) (DateFromTime t) = Day t.
Proof.
  unfold MakeDay, DateFromTime, DayWithinYear.
  rewrite InLeapYear_leap_days. lia.
Qed.

Lemma MakeTime_of_time t :
  MakeTime (HourFromTime t) (MinFromTime t) (SecFromTime t) (msFromTime t)
  = TimeWithinDay t.
Proof.
  unfold MakeTime, HourFromTime, MinFromTime, SecFromTime, msFromTime,
    TimeWithinDay, msPerDay. div_lia.
Qed.

Lemma MakeDate_of_time t : MakeDate (Day t) (TimeWithinDay t) = t.
Proof. unfold MakeDate, Day, TimeWithinDay, msPerDay. div_lia. Qed.

Lemma YearFromTime_range t :
  is_time_value t = true -> -271821 <= YearFromTime t <= 275760.
Proof.
  unfold is_time_value. intros [H1 H2]%andb_prop.
  apply Z.leb_le in H1, H2.
  pose proof (YearFromDay_spec (Day t)) as [Hlo Hhi].
  unfold YearFromTime.
  assert (-100000000 <= Day t <= 100000000) as Hday
    by (unfold Day, msPerDay; div_lia).
  unfold DayFromYear in *. div_lia.
Qed.

(** ** Digits *)

(** The digits do not depend on the fuel once it covers the binary
    logarithm of the number: [Number_toString] never runs short. *)
Lemma digits_fuel_more fuel : forall radix n acc,
  2 <= radix -> 0 <= n < 2 ^ Z.of_nat (S fuel) ->
  digits_fuel (S fuel) radix n acc = digits_fuel fuel radix n acc.
Proof.
  induction fuel as [|fuel IH]; intros radix n acc Hr Hn.
  - change (2 ^ Z.of_nat 1) with 2 in Hn. cbn [digits_fuel].
    destruct (Z.ltb_spec n radix); [|lia]. by rewrite Z.mod_small by lia.
  - change (digits_fuel (S (S fuel)) radix n acc)
      with (if n <? radix then digit_char n :: acc
            else digits_fuel (S fuel) radix (n / radix)
                   (digit_char (n mod radix) :: acc)).
    cbn [digits_fuel]. destruct (Z.ltb_spec n radix); [done|].
    apply IH; [done|].
    rewrite Nat2Z.inj_succ, Z.pow_succ_r in Hn by lia.
    split; [apply Z.div_pos; lia|].
    apply Z.div_lt_upper_bound; [lia|]. nia.
Qed.

Lemma Number_toString_fuel radix n extra :
  2 <= radix -> 0 <= n ->
  digits_fuel (extra + Z.to_nat (Z.log2 n)) radix n []
  = Number_toString radix n.
Proof.
  intros Hr Hn. unfold Number_toString.
  destruct (Z.ltb_spec n 0); [lia|].
  induction extra as [|extra IH]; [done|].
  cbn [Nat.add]. rewrite digits_fuel_more; [done|done|].
  split; [done|].
  destruct (Z.eq_dec n 0) as [->|Hnz].
  { apply Z.pow_pos_nonneg; lia. }
  pose proof (Z.log2_spec n) as [_ Hlog]; [lia|].
  pose proof (Z.log2_nonneg n).
  eapply Z.lt_le_trans; [exact Hlog|].
  apply Z.pow_le_mono_r; lia.
Qed.

(** ** Decimal fields *)

Lemma digit_val_char d : 0 <= d <= 9 -> digit_val (digit_char d) = Some d.
Proof.
  intros Hd. unfold digit_val, digit_char.
  destruct (Z.ltb_spec d 10); [|lia].
  assert ((48 <=? Z.to_N (48 + d))%N = true) as -> by (apply N.leb_le; lia).
  assert ((Z.to_N (48 + d) <=? 57)%N = true) as -> by (apply N.leb_le; lia).
  simpl. f_equal. lia.
Qed.

Lemma is_digit_char d : 0 <= d <= 9 -> is_digit (digit_char d) = true.
Proof.
  intros Hd. unfold is_digit, digit_char.
  destruct (Z.ltb_spec d 10); [|lia].
  apply andb_true_intro; split; apply N.leb_le; lia.
Qed.

Lemma read_dec_snoc w : forall acc s,
  read_dec (S w) acc s
  = match read_dec w acc s with
    | Some (a, c :: s') =>
        match digit_val c with
        | Some d => Some (10 * a + d, s')
        | None => None
        end
    | _ => None
    end.
Proof.
  induction w as [|w IH]; intros acc s.
  - simpl. destruct s as [|c s']; [done|]. by destruct (digit_val c).
  - change (read_dec (S (S w)) acc s) with
      (match s with
       | c :: s' =>
           match digit_val c with
           | Some d => read_dec (S w) (10 * acc + d) s'
           | None => None
           end
       | [] => None
       end).
    destruct s as [|c s']; [done|]. simpl (read_dec (S w) acc (c :: s')).
    destruct (digit_val c) as [d|]; [|done]. apply IH.
Qed.

Lemma read_dec_pad w : forall n acc rest,
  0 <= n < 10 ^ Z.of_nat w ->
  read_dec w acc (pad_dec w n ++ rest) = Some (acc * 10 ^ Z.of_nat w + n, rest).
Proof.
  induction w as [|w IH]; intros n acc rest Hn.
  - simpl in *. f_equal. f_equal. lia.
  - rewrite read_dec_snoc. simpl pad_dec. rewrite <- app_assoc.
    rewrite Nat2Z.inj_succ, Z.pow_succ_r in * by lia.
    rewrite IH by div_lia. simpl.
    rewrite digit_val_char by div_lia. f_equal. f_equal. div_lia.
Qed.

Lemma repeat_S_app {A} (a : A) w l : repeat a (S w) ++ l = repeat a w ++ a :: l.
Proof. induction w as [|w IH]; [done|]. simpl in *. by rewrite IH. Qed.

Lemma shape_digits w : forall n pat s,
  shape pat s = true ->
  shape (repeat 100%N w ++ pat) (pad_dec w n ++ s) = true.
Proof.
  induction w as [|w IH]; intros n pat s Hs; [done|].
  simpl pad_dec. rewrite <- app_assoc.
  rewrite repeat_S_app. apply IH. simpl. rewrite is_digit_char by div_lia. done.
Qed.

Lemma read_year_iso y rest :
  -999999 <= y <= 999999 ->
  read_year (iso_year y ++ rest) = Some (y, rest).
Proof.
  intros Hy. unfold iso_year, in_range.
  destruct (Z.leb_spec 0 y) as [H0|H0]; simpl andb.
  - destruct (Z.leb_spec y 9999) as [H1|H1].
    + pose proof (is_digit_char (y / 10 / 10 / 10 mod 10)) as Hd.
      pose proof (read_dec_pad 4 y 0 rest) as Hr.
      cbn [pad_dec app] in *. unfold read_year.
      unfold is_digit in Hd.
      destruct (N.eqb_spec (digit_char (y / 10 / 10 / 10 mod 10)) 43) as [E|_];
        [rewrite E in Hd; discriminate Hd; div_lia|].
      destruct (N.eqb_spec (digit_char (y / 10 / 10 / 10 mod 10)) 45) as [E|_];
        [rewrite E in Hd; discriminate Hd; div_lia|].
      rewrite Hr by lia. f_equal.
    + destruct (Z.ltb_spec y 0); [lia|].
      cbn [app read_year N.eqb Pos.eqb].
      rewrite read_dec_pad by (simpl; lia). f_equal.
  - destruct (Z.ltb_spec y 0); [|lia].
    cbn [app read_year N.eqb Pos.eqb].
    rewrite read_dec_pad by (simpl; lia).
    destruct (Z.eqb_spec (0 * 10 ^ Z.of_nat 6 + - y) 0); [lia|].
    f_equal. f_equal. lia.
Qed.

Lemma iso_year_shape y s pat :
  -999999 <= y <= 999999 ->
  shape pat s = true ->
  shape (lit "dddd" ++ pat) (iso_year y ++ s)
  || shape (lit "+dddddd" ++ pat) (iso_year y ++ s)
  || shape (lit "-dddddd" ++ pat) (iso_year y ++ s) = true.
Proof.
  intros Hy Hs. unfold iso_year.
  destruct (Z.leb_spec 0 y) as [H0|H0]; simpl andb.
  - destruct (Z.leb_spec y 9999) as [H1|H1].
    + pose proof (shape_digits 4 y pat s Hs) as H4.
      apply orb_true_iff; left. apply orb_true_iff; left. exact H4.
    + destruct (Z.ltb_spec y 0); [lia|].
      pose proof (shape_digits 6 y pat s Hs) as H6.
      apply orb_true_iff; left. apply orb_true_iff; right.
      exact H6.
  - destruct (Z.ltb_spec y 0); [|lia].
    pose proof (shape_digits 6 (- y) pat s Hs) as H6.
    apply orb_true_iff; right. exact H6.
Qed.

Lemma expect_same c rest : expect c (c :: rest) = Some rest.
Proof. unfold expect. by rewrite N.eqb_refl. Qed.

Lemma time_fields_range t :
  0 <= HourFromTime t <= 23 /\ 0 <= MinFromTime t <= 59
  /\ 0 <= SecFromTime t <= 59 /\ 0 <= msFromTime t <= 999.
Proof.
  unfold HourFromTime, MinFromTime, SecFromTime, msFromTime.
  repeat split; div_lia.
Qed.

Lemma DaysInMonth_le_31 y m : 0 <= m <= 11 -> DaysInMonth y m <= 31.
Proof.
  intros Hm. unfold DaysInMonth. pose proof (leap_days_range y).
  destruct m as [|p|p]; [simpl; lia| |lia].
  do 4 (try destruct p as [p|p|]); simpl; lia.
Qed.

Lemma in_range_true lo hi x : lo <= x <= hi -> in_range lo hi x = true.
Proof.
  intros [H1 H2]. unfold in_range.
  apply andb_true_intro; split; by apply Z.leb_le.
Qed.

Ltac read_field :=
  first [ rewrite expect_same
        | rewrite read_dec_pad by (simpl; lia) ];
  cbn [mbind option_bind].

Theorem toISOString_parse t :
  is_time_value t = true -> Date_parse (toISOString t) = Some t.
Proof.
  intros Ht.
  pose proof (YearFromTime_range t Ht) as Hy.
  pose proof (MonthFromTime_range t) as Hm.
  pose proof (DateFromTime_range t) as Hd.
  pose proof (DaysInMonth_le_31 (YearFromTime t) _ Hm) as Hdm.
  pose proof (time_fields_range t) as (Hh & Hmi & Hs & Hms).
  unfold Date_parse, toISOString.
  change (lit "-") with [45%N]. change (lit "T") with [84%N].
  change (lit ":") with [58%N]. change (lit ".") with [46%N].
  change (lit "Z") with [90%N]. cbn [app].
  rewrite read_year_iso by lia. cbn [mbind option_bind].
  do 12 read_field.
  change ([90%N]) with (90%N :: []). rewrite expect_same.
  cbn [mbind option_bind].
  rewrite !Z.mul_0_l, !Z.add_0_l, !Z.add_simpl_r.
  rewrite MakeDay_of_time, MakeTime_of_time, MakeDate_of_time.
  rewrite bool_decide_eq_true_2 by done.
  rewrite !in_range_true by lia. simpl.
  unfold TimeClip. by rewrite Ht.
Qed.

Theorem toISOString_shape t :
  is_time_value t = true -> iso_shape (toISOString t) = true.
Proof.
  intros Ht. pose proof (YearFromTime_range t Ht) as Hy.
  unfold iso_shape, toISOString.
  apply (iso_year_shape (YearFromTime t) _ (lit "-dd-ddTdd:dd:dd.dddZ"));
    [lia|].
  change (lit "-dd-ddTdd:dd:dd.dddZ") with
    (lit "-" ++ repeat 100%N 2 ++ lit "-" ++ repeat 100%N 2 ++ lit "T"
     ++ repeat 100%N 2 ++ lit ":" ++ repeat 100%N 2 ++ lit ":"
     ++ repeat 100%N 2 ++ lit "." ++ repeat 100%N 3 ++ lit "Z").
  change (lit "-") with [45%N]. change (lit "T") with [84%N].
  change (lit ":") with [58%N]. change (lit ".") with [46%N].
  change (lit "Z") with [90%N].
  repeat first [ apply shape_digits | cbn [app shape N.eqb Pos.eqb andb] ].
  done.
Qed.

(** ** The matcher *)


(** When the continuation cannot start with a character of the class, the
    iteration takes the whole run and nothing is given back. *)
Lemma star_exact {R} p xs s (k : str -> option R) :
  forallb p xs = true -> stops p s ->
  (forall c l, p c = true -> k (c :: l) = None) ->
  star p (xs ++ s) k = k s.
Proof.
  intros Hxs Hs Hk. induction xs as [|x xs IH]; simpl in *.
  - destruct s as [|c s']; [done|]. simpl in *. by rewrite Hs.
  - apply andb_prop in Hxs as [Hx Hxs]. rewrite Hx, (IH Hxs).
    destruct (k s) eqn:E; [done|]. by apply Hk.
Qed.

Lemma take_prefix {A} (a s : list A) :
  take (length (a ++ s) - length s) (a ++ s) = a.
Proof. by rewrite length_app, Nat.add_sub, take_app_length. Qed.

Lemma space_not_spec c : is_space c = true -> spec_char c = false.
Proof. unfold spec_char. by intros ->. Qed.

Lemma spec_not_space c : spec_char c = true -> is_space c = false.
Proof.
  unfold spec_char. destruct (is_space c); [done|]. done.
Qed.

Lemma spec_not_close c : spec_char c = true -> (brace_close =? c)%N = false.
Proof.
  unfold spec_char. intros [_ H]%andb_prop. rewrite N.eqb_sym.
  by destruct (c =? brace_close)%N.
Qed.

Lemma space_cases c :
  is_space c = true ->
  (95 =? c)%N = false /\ (brace_close =? c)%N = false
  /\ (brace_open =? c)%N = false /\ (colon =? c)%N = false.
Proof.
  unfold is_space, brace_close, brace_open, colon. intros H.
  repeat split;
    match goal with
    | |- (?a =? c)%N = false =>
        destruct (N.eqb_spec a c) as [<-|]; [vm_compute in H|]; done
    end.
Qed.

Lemma rmatch_lits {R} l s caps (k : str -> captures -> option R) :
  rmatch (lits l) (l ++ s) caps k = k s caps.
Proof.
  induction l as [|c l IH]; simpl; [done|]. by rewrite N.eqb_refl.
Qed.

Lemma rmatch_lits_fail {R} l s caps (k : str -> captures -> option R) :
  starts_with l s = false -> rmatch (lits l) s caps k = None.
Proof.
  revert s. induction l as [|c l IH]; intros [|c' s] H; simpl in *;
    try done.
  destruct (c =? c')%N; [by apply IH|done].
Qed.

Lemma starts_with_head a p b s :
  (a =? b)%N = false -> starts_with (a :: p) (b :: s) = false.
Proof. simpl. by intros ->. Qed.


Lemma customFuncRegex_parts :
  customFuncRegex
  = Seq (lits (lit "{{")) (Seq (Star is_space) (Seq (lits (lit "__"))
      (Seq re_selector (Seq (lits (lit ":date")) (Seq re_spec re_tail))))).
Proof. reflexivity. Qed.

Lemma re_tail_match {R} ws rest caps (k : str -> captures -> option R) :
  all_space ws = true ->
  rmatch re_tail (ws ++ lit "}}" ++ rest) caps k = k rest caps.
Proof.
  intros Hws. unfold re_tail. cbn [rmatch].
  rewrite star_exact; [apply rmatch_lits|done|done|].
  intros c l Hc. apply rmatch_lits_fail.
  apply (starts_with_head brace_close). by apply space_cases.
Qed.

(** The tail does not match a text that starts with a character of a
    specifier, which is neither white space nor a closing brace. *)
Lemma re_tail_spec_char {R} c l caps (k : str -> captures -> option R) :
  spec_char c = true -> rmatch re_tail (c :: l) caps k = None.
Proof.
  intros Hc. unfold re_tail. cbn [rmatch star].
  rewrite (spec_not_space c Hc). apply rmatch_lits_fail.
  apply (starts_with_head brace_close). by apply spec_not_close.
Qed.

Lemma colon_spec_char : spec_char colon = true.
Proof. reflexivity. Qed.

Lemma re_spec_match {R} spec s caps (k : str -> captures -> option R) :
  wf_spec spec = true -> stops spec_char s ->
  (forall c l caps', spec_char c = true -> k (c :: l) caps' = None) ->
  rmatch re_spec (spec_text spec ++ s) caps k
  = k s (match spec with
         | Some p => <[2%nat := p]> caps
         | None => caps
         end).
Proof.
  intros Hp Hs Hk. unfold re_spec. destruct spec as [p|]; cbn [rmatch spec_text app].
  - rewrite N.eqb_refl. simpl in Hp. apply andb_prop in Hp as [Hne Hp].
    destruct p as [|c p]; [done|]. simpl in Hp.
    apply andb_prop in Hp as [Hc Hp]. cbn [app]. rewrite Hc.
    rewrite star_exact; [|done|done|by intros; apply Hk].
    change (c :: p ++ s) with ((c :: p) ++ s). rewrite take_prefix.
    destruct (k s _); [done|]. by apply Hk, colon_spec_char.
  - destruct s as [|c s]; [done|]. simpl in Hs.
    destruct (N.eqb_spec colon c) as [<-|]; [|done].
    by rewrite colon_spec_char in Hs.
Qed.

Lemma re_selector_match {R} sel s caps (k : str -> captures -> option R) :
  rmatch re_selector (selector_text sel ++ s) caps k
  = k s (<[1%nat := selector_text sel]> caps).
Proof.
  unfold re_selector. cbn [rmatch]. destruct sel.
  - change (selector_text TimeFrom) with (lit "time_from").
    rewrite rmatch_lits, take_prefix.
    destruct (k s _) eqn:E; [done|].
    apply rmatch_lits_fail. reflexivity.
  - rewrite rmatch_lits_fail by reflexivity.
    change (selector_text TimeTo) with (lit "time_to").
    by rewrite rmatch_lits, take_prefix.
Qed.

(** When what follows the selector cannot be matched, neither alternative
    of the selector succeeds. *)
Lemma re_selector_fail {R} sel s caps (k : str -> captures -> option R) :
  (forall caps', k s caps' = None) ->
  rmatch re_selector (selector_text sel ++ s) caps k = None.
Proof. intros Hk. by rewrite re_selector_match. Qed.

Lemma space_stops_spec ws s :
  all_space ws = true -> stops spec_char (ws ++ lit "}}" ++ s).
Proof.
  destruct ws as [|c ws]; [done|]. simpl.
  intros [Hc _]%andb_prop. by apply space_not_spec.
Qed.

(** A well-formed macro at the start of a text is matched, whatever
    follows it. *)
Lemma exec_macro ws1 k spec ws2 rest :
  all_space ws1 = true -> wf_spec spec = true -> all_space ws2 = true ->
  regex_exec customFuncRegex (macro_text ws1 k spec ws2 ++ rest)
  = Some (length (macro_text ws1 k spec ws2), macro_caps k spec).
Proof.
  intros H1 Hp H2. unfold regex_exec. rewrite customFuncRegex_parts.
  unfold macro_text. rewrite <- !app_assoc. cbn [rmatch].
  rewrite rmatch_lits.
  rewrite star_exact; [|done|done|].
  2:{ intros c l Hc. apply rmatch_lits_fail.
      apply (starts_with_head 95). by apply space_cases. }
  rewrite rmatch_lits, re_selector_match, rmatch_lits.
  rewrite re_spec_match; [|done|by apply space_stops_spec|].
  2:{ intros c l caps' Hc. by apply re_tail_spec_char. }
  rewrite re_tail_match by done.
  f_equal. f_equal.
  rewrite !length_app. simpl. lia.
Qed.

(** ** Replacement *)

Section Replace.

Variable r : regex.
Variable f : str -> captures -> result str.

Lemma replace_skip xs rest :
  replace_from r f (length xs) (xs ++ rest) = replace_from r f O rest.
Proof. induction xs as [|x xs IH]; [done|]. simpl. apply IH. Qed.

Lemma replace_match m rest caps :
  m <> [] ->
  regex_exec r (m ++ rest) = Some (length m, caps) ->
  replace_from r f O (m ++ rest)
  = (let* v := f m caps in
     let* out := replace_from r f O rest in
     Ok (v ++ out)).
Proof.
  intros Hm He. destruct m as [|c m]; [done|].
  cbn [app replace_from]. change (c :: m ++ rest) with ((c :: m) ++ rest).
  rewrite He. cbn [length]. rewrite replace_skip.
  change (S (length m)) with (length (c :: m)).
  by rewrite take_app_length.
Qed.

Lemma replace_no_match c s :
  regex_exec r (c :: s) = None ->
  replace_from r f O (c :: s)
  = (let* out := replace_from r f O s in Ok (c :: out)).
Proof. intros He. cbn [replace_from]. by rewrite He. Qed.

(** The replacement of a text is the output up to a position that the
    replacement arrives at, followed by the replacement of the rest. *)
Lemma replace_upto_split n : forall skip s o,
  replace_upto r f skip n s = Some o ->
  replace_from r f skip s
  = (let* a := o in
     let* b := replace_from r f O (drop n s) in
     Ok (a ++ b)).
Proof.
  induction n as [|n IH]; intros skip s o Ho.
  - destruct skip; [|done]. injection Ho as <-. rewrite drop_0.
    cbn [bind app]. by destruct (replace_from r f 0 s).
  - destruct s as [|c s]; [done|]. cbn [replace_upto] in Ho.
    cbn [replace_from]. change (drop (S n) (c :: s)) with (drop n s).
    destruct skip as [|k]; [|by apply IH].
    destruct (regex_exec r (c :: s)) as [[[|m] caps]|].
    + destruct (replace_upto r f 0 n s) as [o'|] eqn:E; [|done].
      injection Ho as <-. rewrite (IH _ _ _ E).
      destruct (f [] caps); [|done]. destruct o'; [|done]. cbn [bind].
      destruct (replace_from r f 0 (drop n s)); [|done]. cbn [bind].
      by rewrite <- app_assoc.
    + destruct (replace_upto r f m n s) as [o'|] eqn:E; [|done].
      injection Ho as <-. rewrite (IH _ _ _ E).
      destruct (f _ caps); [|done]. destruct o'; [|done]. cbn [bind].
      destruct (replace_from r f 0 (drop n s)); [|done]. cbn [bind].
      by rewrite <- app_assoc.
    + destruct (replace_upto r f 0 n s) as [o'|] eqn:E; [|done].
      injection Ho as <-. rewrite (IH _ _ _ E).
      destruct o'; [|done]. cbn [bind].
      by destruct (replace_from r f 0 (drop n s)).
Qed.

End Replace.

Lemma exec_not_open c s :
  (brace_open =? c)%N = false -> regex_exec customFuncRegex (c :: s) = None.
Proof.
  intros Hc. unfold regex_exec. rewrite customFuncRegex_parts. cbn [rmatch].
  apply rmatch_lits_fail. by apply (starts_with_head brace_open).
Qed.

Lemma exec_single_open c s :
  (brace_open =? c)%N = false ->
  regex_exec customFuncRegex (brace_open :: c :: s) = None.
Proof.
  intros Hc. unfold regex_exec. rewrite customFuncRegex_parts. cbn [rmatch].
  apply rmatch_lits_fail.
  change (lit "{{") with [brace_open; brace_open].
  cbn [starts_with]. by rewrite Hc, N.eqb_refl.
Qed.

Lemma exec_empty : regex_exec customFuncRegex [] = None.
Proof. reflexivity. Qed.


Lemma not_open_eqb c : not_open c = true -> (brace_open =? c)%N = false.
Proof. unfold not_open. by destruct (brace_open =? c)%N. Qed.

Section Expansion.

Variable format : Z -> str -> result str.
Variable timeRange : option TimeRange.

Local Abbreviation expand s := (replaceCustomFunctions format s timeRange).

Lemma expand_nil : expand [] = Ok [].
Proof. reflexivity. Qed.

Lemma expand_no_match c s :
  regex_exec customFuncRegex (c :: s) = None ->
  expand (c :: s) = rmap (cons c) (expand s).
Proof. intros He. unfold expand. by apply replace_no_match. Qed.

(** A run of characters with no opening brace is copied. *)
Lemma expand_plain l s :
  forallb not_open l = true -> expand (l ++ s) = rmap (app l) (expand s).
Proof.
  induction l as [|c l IH]; intros Hl.
  - simpl. unfold rmap. by destruct (expand s).
  - simpl in Hl. apply andb_prop in Hl as [Hc Hl].
    cbn [app]. rewrite expand_no_match
      by (by apply exec_not_open, not_open_eqb).
    rewrite (IH Hl). unfold rmap. by destruct (expand s).
Qed.

Lemma expand_plain_all l : forallb not_open l = true -> expand l = Ok l.
Proof.
  intros Hl. rewrite <- (app_nil_r l) at 1.
  rewrite (expand_plain l [] Hl), expand_nil. cbn [rmap bind].
  by rewrite app_nil_r.
Qed.

(** The text before the first match is copied. *)
Lemma expand_before pre : forall s,
  no_match_before (length pre) (pre ++ s) = true ->
  expand (pre ++ s) = rmap (app pre) (expand s).
Proof.
  induction pre as [|c pre IH]; intros s Hn.
  - simpl. unfold rmap. by destruct (expand s).
  - cbn [length app no_match_before] in Hn.
    apply andb_prop in Hn as [Hc Hn].
    cbn [app]. rewrite expand_no_match
      by (by destruct (regex_exec customFuncRegex (c :: pre ++ s))).
    rewrite (IH s Hn). unfold rmap. by destruct (expand s).
Qed.

(** Two opening braces that start no match are copied with the brace-free
    text that follows them. *)
Lemma expand_failed_open tail s :
  tail <> [] -> forallb not_open tail = true ->
  regex_exec customFuncRegex (lit "{{" ++ tail ++ s) = None ->
  expand (lit "{{" ++ tail ++ s) = rmap (app (lit "{{" ++ tail)) (expand s).
Proof.
  intros Hne Ht He.
  change (lit "{{") with [brace_open; brace_open] in *. cbn [app] in *.
  rewrite expand_no_match by done.
  destruct tail as [|c tail]; [done|]. cbn [app].
  pose proof Ht as Ht'. simpl in Ht'. apply andb_prop in Ht' as [Hc _].
  rewrite expand_no_match
    by (by apply exec_single_open, not_open_eqb).
  change (c :: tail ++ s) with ((c :: tail) ++ s).
  rewrite (expand_plain _ s Ht). unfold rmap. by destruct (expand s).
Qed.

(** A well-formed macro is replaced by what the replacer makes of its
    capture groups, and the expansion goes on after it. *)
Lemma expand_macro ws1 k spec ws2 rest :
  all_space ws1 = true -> wf_spec spec = true -> all_space ws2 = true ->
  expand (macro_text ws1 k spec ws2 ++ rest)
  = (let* v := replacer format timeRange (macro_text ws1 k spec ws2)
                 (macro_caps k spec) in
     let* out := expand rest in
     Ok (v ++ out)).
Proof.
  intros H1 Hp H2. unfold replaceCustomFunctions, String_replace.
  apply replace_match; [|by apply exec_macro].
  unfold macro_text. by change (lit "{{") with [brace_open; brace_open].
Qed.

End Expansion.

(** ** Texts that look like a macro and are not one *)

Lemma all_space_not_open ws : all_space ws = true -> forallb not_open ws = true.
Proof.
  induction ws as [|c ws IH]; [done|]. simpl.
  intros [Hc Hws]%andb_prop. rewrite (IH Hws), andb_true_r.
  unfold not_open. by destruct (space_cases c Hc) as (_ & _ & -> & _).
Qed.

Lemma selector_not_open k : forallb not_open (selector_text k) = true.
Proof. by destruct k. Qed.

(** The regular expression, tried on an opening followed by [s], succeeds
    only if [s] can be matched from [:date] on. *)
Lemma exec_macro_open ws k s :
  all_space ws = true ->
  (forall caps R (K : str -> captures -> option R),
     rmatch (Seq (lits (lit ":date")) (Seq re_spec re_tail)) s caps K = None) ->
  regex_exec customFuncRegex (macro_open ws k ++ s) = None.
Proof.
  intros Hws Hs. unfold regex_exec, macro_open.
  rewrite customFuncRegex_parts, <- !app_assoc. cbn [rmatch].
  rewrite rmatch_lits.
  rewrite star_exact; [|done|done|].
  2:{ intros c l Hc. apply rmatch_lits_fail.
      apply (starts_with_head 95). by apply space_cases. }
  rewrite rmatch_lits. apply re_selector_fail. intros caps'.
  apply (Hs caps').
Qed.

(** Without [:date] after the selector there is no match. *)
Lemma exec_missing_date ws k rest :
  all_space ws = true -> starts_with (lit ":date") rest = false ->
  regex_exec customFuncRegex (macro_open ws k ++ rest) = None.
Proof.
  intros Hws Hr. apply exec_macro_open; [done|].
  intros caps R K. cbn [rmatch]. by apply rmatch_lits_fail.
Qed.

(** With [:date:] and no character of a specifier after it there is no
    match either: the optional group fails for want of a character, and
    without the group the colon is in the way of the closing braces. *)
Lemma exec_empty_spec ws k rest :
  all_space ws = true -> no_spec_start rest = true ->
  regex_exec customFuncRegex (macro_open ws k ++ lit ":date:" ++ rest) = None.
Proof.
  intros Hws Hr. apply exec_macro_open; [done|].
  intros caps R K.
  change (lit ":date:" ++ rest) with (lit ":date" ++ colon :: rest).
  change (rmatch (lits (lit ":date")) (lit ":date" ++ colon :: rest) caps
            (fun s' caps' => rmatch (Seq re_spec re_tail) s' caps' K) = None).
  rewrite rmatch_lits. unfold re_spec. cbn [rmatch]. rewrite N.eqb_refl.
  assert (match rest with
          | [] => None
          | c :: s' =>
              if spec_char c
              then star spec_char s'
                     (fun s'' =>
                        rmatch re_tail s''
                          (<[2%nat := take (length rest - length s'') rest]> caps) K)
              else None
          end = None) as ->.
  { destruct rest as [|c rest]; [done|]. simpl in Hr.
    by destruct (spec_char c). }
  by apply re_tail_spec_char.
Qed.




(** ** The replacer on the capture groups of a macro *)

Lemma macro_caps_1 k spec : macro_caps k spec !! 1%nat = Some (selector_text k).
Proof.
  destruct spec; cbv [macro_caps].
  - rewrite lookup_insert_ne by done. apply lookup_insert_eq.
  - apply lookup_insert_eq.
Qed.

Lemma macro_caps_2 k spec : macro_caps k spec !! 2%nat = spec.
Proof.
  destruct spec; cbv [macro_caps].
  - apply lookup_insert_eq.
  - rewrite lookup_insert_ne by done. apply lookup_empty.
Qed.

Lemma selector_is_from k :
  bool_decide (Some (selector_text k) = Some (lit "time_from"))
  = match k with TimeFrom => true | TimeTo => false end.
Proof. by destruct k. Qed.

Lemma replacer_macro format tr m k spec :
  replacer format (Some tr) m (macro_caps k spec)
  = match spec with
    | None => Date_toISOString (bound k tr)
    | Some p =>
        if bool_decide (p = []) || bool_decide (p = lit "iso")
        then Date_toISOString (bound k tr)
        else if bool_decide (p = lit "toObjectId")
        then Ok (this_timeToObjectId (bound k tr))
        else if bool_decide (p = lit "seconds")
        then Ok (number_toString 10
                   (Math_floor_div_1000 (valueOf (bound k tr))))
        else if bool_decide (p = lit "milliseconds")
        then Ok (number_toString 10 (valueOf (bound k tr)))
        else format (bound k tr) p
    end.
Proof.
  unfold replacer. rewrite macro_caps_1, macro_caps_2, selector_is_from.
  by destruct k.
Qed.

(** On a valid date the methods give the renderings of its time value. *)
Lemma valueOf_valid t : is_time_value t = true -> valueOf t = Some t.
Proof. unfold valueOf, TimeClip. by intros ->. Qed.

Lemma valueOf_invalid t : is_time_value t = false -> valueOf t = None.
Proof. unfold valueOf, TimeClip. by intros ->. Qed.

Lemma replacer_macro_valid format tr m k spec :
  is_time_value (bound k tr) = true ->
  replacer format (Some tr) m (macro_caps k spec)
  = match spec with
    | None => Ok (toISOString (bound k tr))
    | Some p =>
        if bool_decide (p = []) || bool_decide (p = lit "iso")
        then Ok (toISOString (bound k tr))
        else if bool_decide (p = lit "toObjectId")
        then Ok (timeToObjectId (bound k tr))
        else if bool_decide (p = lit "seconds")
        then Ok (Number_toString 10 (floor_div_1000 (bound k tr)))
        else if bool_decide (p = lit "milliseconds")
        then Ok (Number_toString 10 (bound k tr))
        else format (bound k tr) p
    end.
Proof.
  intros Ht. rewrite replacer_macro.
  unfold Date_toISOString, this_timeToObjectId.
  by rewrite (valueOf_valid _ Ht).
Qed.

(** On an invalid date [toISOString] throws and the numbers are [NaN]. *)
Lemma replacer_macro_invalid format tr m k spec :
  is_time_value (bound k tr) = false ->
  replacer format (Some tr) m (macro_caps k spec)
  = match spec with
    | None => Throw (RangeError (lit "Invalid time value"))
    | Some p =>
        if bool_decide (p = []) || bool_decide (p = lit "iso")
        then Throw (RangeError (lit "Invalid time value"))
        else if bool_decide (p = lit "toObjectId")
        then Ok (lit "NaN0000000000000000")
        else if bool_decide (p = lit "seconds")
        then Ok (lit "NaN")
        else if bool_decide (p = lit "milliseconds")
        then Ok (lit "NaN")
        else format (bound k tr) p
    end.
Proof.
  intros Ht. rewrite replacer_macro.
  unfold Date_toISOString, this_timeToObjectId.
  by rewrite (valueOf_invalid _ Ht).
Qed.

Lemma rmap_rmap {A B C} (g : B -> C) (f : A -> B) (m : result A) :
  rmap g (rmap f m) = rmap (fun a => g (f a)) m.
Proof. by destruct m. Qed.

Lemma rmap_app_app (a b : str) (m : result str) :
  rmap (app a) (rmap (app b) m) = rmap (app (a ++ b)) m.
Proof. destruct m; [|done]. simpl. by rewrite app_assoc. Qed.

Lemma macro_open_parts ws k :
  macro_open ws k = lit "{{" ++ (ws ++ lit "__" ++ selector_text k).
Proof. reflexivity. Qed.

Lemma macro_open_tail ws k :
  all_space ws = true ->
  ws ++ lit "__" ++ selector_text k <> []
  /\ forallb not_open (ws ++ lit "__" ++ selector_text k) = true.
Proof.
  intros Hws. split; [by destruct ws|].
  rewrite !forallb_app, (all_space_not_open ws Hws), selector_not_open.
  done.
Qed.

(** ** The expander *)

Section ExpanderClaims.

Variable format : Z -> str -> result str.

(** The output up to a position before which nothing is matched is the
    text up to that position. *)
Lemma no_match_before_upto timeRange pre : forall s,
  no_match_before (length pre) (pre ++ s) = true ->
  replace_upto customFuncRegex (replacer format timeRange) 0 (length pre)
    (pre ++ s) = Some (Ok pre).
Proof.
  induction pre as [|c pre IH]; intros s Hn; [done|].
  cbn [length app no_match_before] in Hn.
  apply andb_prop in Hn as [Hc Hn].
  cbn [length app replace_upto].
  destruct (regex_exec customFuncRegex (c :: pre ++ s)); [done|].
  by rewrite (IH s Hn).
Qed.

Lemma expand_from_upto timeRange pre s out :
  replace_upto customFuncRegex (replacer format timeRange) 0 (length pre)
    (pre ++ s) = Some out ->
  replaceCustomFunctions format (pre ++ s) timeRange
  = (let* a := out in
     let* b := replaceCustomFunctions format s timeRange in
     Ok (a ++ b)).
Proof.
  intros Ho. unfold replaceCustomFunctions, String_replace.
  rewrite (replace_upto_split _ _ _ _ _ _ Ho). by rewrite drop_app_length.
Qed.

(** C7.  A text that opens like a macro ([{{], white space, [__] and a
    selector) and does not go on with [:date] is not matched by the
    regular expression, whatever follows it.  When the replacement arrives
    at it, having put out [out] for the text [pre] before it (so it does
    not lie inside an earlier match), it is copied to the output as it is
    and the expansion goes on after it; nothing is thrown on its account,
    and brace-free text after it is copied too. *)
Theorem malformed_macro_left_unchanged pre ws k rest timeRange out :
  all_space ws = true ->
  starts_with (lit ":date") rest = false ->
  replace_upto customFuncRegex (replacer format timeRange) 0 (length pre)
    (pre ++ macro_open ws k ++ rest) = Some out ->
  regex_exec customFuncRegex (macro_open ws k ++ rest) = None
  /\ replaceCustomFunctions format (pre ++ macro_open ws k ++ rest) timeRange
     = (let* a := out in
        let* b := replaceCustomFunctions format rest timeRange in
        Ok (a ++ macro_open ws k ++ b))
  /\ (forallb not_open rest = true ->
      replaceCustomFunctions format (pre ++ macro_open ws k ++ rest) timeRange
      = (let* a := out in Ok (a ++ macro_open ws k ++ rest))).
Proof.
  intros Hws Hr Hpre.
  pose proof (exec_missing_date ws k rest Hws Hr) as Hex.
  destruct (macro_open_tail ws k Hws) as [Hne Hno].
  assert (replaceCustomFunctions format (macro_open ws k ++ rest) timeRange
          = rmap (app (macro_open ws k))
              (replaceCustomFunctions format rest timeRange)) as Hocc.
  { rewrite macro_open_parts in *. rewrite <- app_assoc in *.
    by rewrite expand_failed_open. }
  split; [done|]. rewrite (expand_from_upto _ _ _ _ Hpre), Hocc.
  split.
  - destruct out; [|done]. cbn [bind].
    by destruct (replaceCustomFunctions format rest timeRange).
  - intros Hplain. rewrite (expand_plain_all _ _ _ Hplain).
    by destruct out.
Qed.

(** C10.  After [:date:] a text that does not go on with a character of a
    specifier (white space, a closing brace or the end of the text) is not
    matched: the macro is not read as one without a specifier.  When the
    replacement arrives at it, having put out [out] for the text [pre]
    before it, it is copied to the output as it is. *)
Theorem empty_specifier_not_matched pre ws k rest timeRange out :
  all_space ws = true ->
  no_spec_start rest = true ->
  replace_upto customFuncRegex (replacer format timeRange) 0 (length pre)
    (pre ++ macro_open ws k ++ lit ":date:" ++ rest) = Some out ->
  regex_exec customFuncRegex (macro_open ws k ++ lit ":date:" ++ rest) = None
  /\ replaceCustomFunctions format
       (pre ++ macro_open ws k ++ lit ":date:" ++ rest) timeRange
     = (let* a := out in
        let* b := replaceCustomFunctions format rest timeRange in
        Ok (a ++ macro_open ws k ++ lit ":date:" ++ b))
  /\ (forallb not_open rest = true ->
      replaceCustomFunctions format
        (pre ++ macro_open ws k ++ lit ":date:" ++ rest) timeRange
      = (let* a := out in Ok (a ++ macro_open ws k ++ lit ":date:" ++ rest))).
Proof.
  intros Hws Hr Hpre.
  pose proof (exec_empty_spec ws k rest Hws Hr) as Hex.
  destruct (macro_open_tail ws k Hws) as [Hne Hno].
  assert (replaceCustomFunctions format
            (macro_open ws k ++ lit ":date:" ++ rest) timeRange
          = rmap (app (macro_open ws k ++ lit ":date:"))
              (replaceCustomFunctions format rest timeRange)) as Hocc.
  { rewrite macro_open_parts in *. rewrite <- app_assoc in *.
    rewrite (app_assoc _ (lit ":date:") rest) in *.
    rewrite expand_failed_open.
    - by rewrite <- !app_assoc.
    - intros [E _]%app_eq_nil. done.
    - rewrite forallb_app, Hno. reflexivity.
    - done. }
  split; [done|]. rewrite (expand_from_upto _ _ _ _ Hpre), Hocc.
  split.
  - destruct out; [|done]. cbn [bind].
    destruct (replaceCustomFunctions format rest timeRange); [|done].
    cbn [rmap bind]. by rewrite <- !app_assoc.
  - intros Hplain. rewrite (expand_plain_all _ _ _ Hplain).
    destruct out; [|done]. cbn [rmap bind]. by rewrite <- !app_assoc.
Qed.

(** The text before a macro, when it has no two opening braces in a row,
    holds no match. *)
Lemma exec_triple_open s :
  regex_exec customFuncRegex (brace_open :: brace_open :: brace_open :: s)
  = None.
Proof.
  unfold regex_exec. rewrite customFuncRegex_parts. cbn [rmatch].
  change (brace_open :: brace_open :: brace_open :: s)
    with (lit "{{" ++ brace_open :: s).
  rewrite rmatch_lits. cbn [star].
  change (is_space brace_open) with false. cbv iota.
  by apply rmatch_lits_fail.
Qed.

Lemma no_double_open_before pre s :
  no_double_open pre = true ->
  no_match_before (length pre) (pre ++ lit "{{" ++ s) = true.
Proof.
  induction pre as [|a pre IH]; [done|]. intros Hp.
  cbn [no_double_open] in Hp. apply andb_prop in Hp as [Ha Hp].
  cbn [length app no_match_before]. rewrite (IH Hp), andb_true_r.
  destruct (N.eqb_spec brace_open a) as [<-|Hne].
  - destruct pre as [|b pre].
    + cbn [app]. change (lit "{{" ++ s) with (brace_open :: brace_open :: s).
      by rewrite exec_triple_open.
    + cbn [app]. rewrite exec_single_open; [done|].
      by destruct (brace_open =? b)%N.
  - rewrite exec_not_open; [done|]. by apply N.eqb_neq.
Qed.



(** C3.  With [from] at 2021-01-01T00:00:00.000Z the macro
    [{{__time_from:date:toObjectId}}] expands to the 24 characters
    [5fee66000000000000000000]. *)
Theorem toObjectId_2021 to_ :
  toISOString 1609459200000 = lit "2021-01-01T00:00:00.000Z"
  /\ replaceCustomFunctions format (lit "{{__time_from:date:toObjectId}}")
       (Some {| from := 1609459200000; to := to_ |})
     = Ok (lit "5fee66000000000000000000")
  /\ length (lit "5fee66000000000000000000") = 24%nat.
Proof. split; [|split]; vm_compute; reflexivity. Qed.

(** C4.  The macro [{{__time_from:date}}] expands to the ISO 8601
    rendering of [from], in UTC with milliseconds, and the rendering reads
    back as the same time value. *)
Theorem iso_round_trip t to_ :
  is_time_value t = true ->
  replaceCustomFunctions format (lit "{{__time_from:date}}")
    (Some {| from := t; to := to_ |})
  = Ok (toISOString t)
  /\ iso_shape (toISOString t) = true
  /\ Date_parse (toISOString t) = Some t.
Proof.
  intros Ht. split; [|split].
  - change (lit "{{__time_from:date}}")
      with (macro_text [] TimeFrom None [] ++ []).
    rewrite expand_macro by done. rewrite replacer_macro_valid by done.
    cbn [bind bound from]. rewrite expand_nil. cbn [bind].
    by rewrite app_nil_r.
  - by apply toISOString_shape.
  - by apply toISOString_parse.
Qed.

(** C1 at a time before 1978-07-04: the seconds of 1975-01-01T00:00:00Z
    are [9675300] in base 16, seven digits, and the macro expands to 23
    characters. *)
Theorem toObjectId_1975 to_ :
  toISOString 157766400000 = lit "1975-01-01T00:00:00.000Z"
  /\ replaceCustomFunctions format (lit "{{__time_from:date:toObjectId}}")
       (Some {| from := 157766400000; to := to_ |})
     = Ok (lit "96753000000000000000000")
  /\ length (lit "96753000000000000000000") = 23%nat.
Proof. split; [|split]; vm_compute; reflexivity. Qed.

End ExpanderClaims.

(** ** The data source and the store *)

Lemma alloc_fresh (o : obj) (h : heap) : h !! (alloc o h).1 = None.
Proof. unfold alloc. cbn [fst]. apply not_elem_of_dom. apply is_fresh. Qed.

Lemma alloc_lookup (o : obj) (h : heap) : (alloc o h).2 !! (alloc o h).1 = Some o.
Proof. unfold alloc. cbn [fst snd]. apply lookup_insert_eq. Qed.

Lemma alloc_subseteq (o : obj) (h : heap) : h ⊆ (alloc o h).2.
Proof. unfold alloc. cbn [snd]. apply insert_subseteq, (alloc_fresh o). Qed.

Lemma obj_at_alloc (o : obj) (h : heap) : obj_at (alloc o h).2 (alloc o h).1 = o.
Proof. unfold obj_at. by rewrite alloc_lookup. Qed.

Lemma truthy_absent (o : obj) f :
  o !! f = None \/ o !! f = Some VUndefined \/ o !! f = Some (VStr []) ->
  truthy (get o f) = false.
Proof. unfold get. by intros [->|[->| ->]]. Qed.

Section DataSourceClaims.

Variables DataFrame MetricFindValue : Type.
Variable templateSrv_replace : value -> value -> bool -> str.
Variable format : Z -> str -> result str.
Variable super_query : heap -> loc -> Observable (DataQueryResponse DataFrame).
Variable frameToMetricFindValue : DataFrame -> list MetricFindValue.
Variable MongoDBQueryType_Table : value.

(** C6.  [applyTemplateVariables] leaves every object of the store as it
    is, the query it is given among them, and returns a new object.  The
    new object has the properties of the query, except [database],
    [collection] and [aggregation], which are strings: the empty string
    where the query has no such property or an empty one. *)
Theorem applyTemplateVariables_frame query scopedVars h :
  let r := applyTemplateVariables templateSrv_replace query scopedVars h in
  let q := obj_at h query in
  let q' := obj_at r.2 r.1 in
  h ⊆ r.2
  /\ h !! r.1 = None
  /\ (forall f, f <> "database" -> f <> "collection" -> f <> "aggregation" ->
      q' !! f = q !! f)
  /\ (forall f, f = "database" \/ f = "collection" \/ f = "aggregation" ->
      exists s, q' !! f = Some (VStr s)
        /\ (q !! f = None \/ q !! f = Some VUndefined
            \/ q !! f = Some (VStr []) -> s = [])).
Proof.
  intros r q q'. unfold applyTemplateVariables in r. fold q in r.
  subst r q'. rewrite obj_at_alloc.
  split; [apply alloc_subseteq|]. split; [apply alloc_fresh|]. split.
  - intros f H1 H2 H3. by rewrite !lookup_insert_ne.
  - intros f [->|[->| ->]].
    + rewrite !lookup_insert_ne by done. rewrite lookup_insert_eq.
      destruct (truthy (get q "database")) eqn:E; eexists; (split; [done|]);
        intros Hq; [|done].
      by rewrite (truthy_absent q "database" Hq) in E.
    + rewrite !lookup_insert_ne by done. rewrite lookup_insert_eq.
      destruct (truthy (get q "collection")) eqn:E; eexists;
        (split; [done|]); intros Hq; [|done].
      by rewrite (truthy_absent q "collection" Hq) in E.
    + rewrite lookup_insert_eq.
      destruct (truthy (get q "aggregation")) eqn:E; eexists;
        (split; [done|]); intros Hq; [|done].
      by rewrite (truthy_absent q "aggregation" Hq) in E.
Qed.

(** C9.  The request that [metricFindQuery] gives to [query] has one
    target, the synthetic one with [refId] "metricFindQuery", whatever the
    options hold, a list of targets of their own included. *)
Theorem metricFindQuery_single_target q options h :
  let r := metricFindQuery_request MongoDBQueryType_Table q options h in
  exists target,
    obj_at r.2 r.1 !! "targets" = Some (VArr [VRef target])
    /\ r.2 !! target
       = Some (metricFindQuery_target MongoDBQueryType_Table (obj_at h q))
    /\ obj_at r.2 target !! "refId" = Some (VStr (lit "metricFindQuery")).
Proof.
  intros r. unfold metricFindQuery_request in r.
  set (t := metricFindQuery_target MongoDBQueryType_Table (obj_at h q)) in *.
  destruct (alloc t h) as [target h1] eqn:Ea.
  pose proof (alloc_lookup t h) as Ht. rewrite Ea in Ht. simpl in Ht.
  exists target. subst r. rewrite obj_at_alloc.
  split; [apply lookup_insert_eq|].
  assert ((alloc (<["targets":=VArr [VRef target]]>
                    match options with
                    | Some o => obj_at h1 o
                    | None => ∅
                    end) h1).2 !! target = Some t) as Hl.
  { eapply lookup_weaken; [exact Ht|apply alloc_subseteq]. }
  split; [exact Hl|]. unfold obj_at at 1. rewrite Hl. simpl.
  unfold t, metricFindQuery_target.
  rewrite !lookup_insert_ne by done. apply lookup_insert_eq.
Qed.

Lemma lastValueFrom_complete {A} (o : Observable A) earlier a :
  emitted o = earlier ++ [a] -> ending o = Complete ->
  lastValueFrom o = Fulfilled a.
Proof.
  intros He Hc. unfold lastValueFrom. by rewrite Hc, He, last_snoc.
Qed.

(** C2, as the code has it.  The promise of [metricFindQuery] stays
    pending while the stream of the executor has not completed, whatever
    has been emitted; once the stream completes, the result is what the
    handler makes of the last response emitted, and the responses emitted
    before it play no part. *)
Theorem metricFindQuery_last_emission q options h stream :
  metricFindQuery_stream DataFrame templateSrv_replace format super_query
    MongoDBQueryType_Table q options h = Ok stream ->
  (ending stream = Unfinished ->
   metricFindQuery DataFrame MetricFindValue templateSrv_replace format
     super_query frameToMetricFindValue MongoDBQueryType_Table q options h
   = Pending)
  /\ (forall earlier rsp,
        ending stream = Complete -> emitted stream = earlier ++ [rsp] ->
        metricFindQuery DataFrame MetricFindValue templateSrv_replace format
          super_query frameToMetricFindValue MongoDBQueryType_Table q options h
        = match metricFindQuery_then DataFrame MetricFindValue
                  frameToMetricFindValue rsp with
          | Ok values => Fulfilled values
          | Throw e => Rejected e
          end).
Proof.
  intros Hs. unfold metricFindQuery. rewrite Hs. split.
  - intros Hu. unfold lastValueFrom. by rewrite Hu.
  - intros earlier rsp Hc He.
    by rewrite (lastValueFrom_complete stream earlier rsp He Hc).
Qed.

(** C5.  When the response of the executor has no error and no frame, the
    result of [metricFindQuery] is the empty list; when it has an error,
    the promise is rejected with an [Error] whose message is the message of
    the error (the empty string when the error has none). *)
Theorem metricFindQuery_empty_or_error q options h stream earlier rsp :
  metricFindQuery_stream DataFrame templateSrv_replace format super_query
    MongoDBQueryType_Table q options h = Ok stream ->
  ending stream = Complete -> emitted stream = earlier ++ [rsp] ->
  (error rsp = None -> data rsp = None \/ data rsp = Some [] ->
   metricFindQuery DataFrame MetricFindValue templateSrv_replace format
     super_query frameToMetricFindValue MongoDBQueryType_Table q options h
   = Fulfilled [])
  /\ (forall e, error rsp = Some e ->
      metricFindQuery DataFrame MetricFindValue templateSrv_replace format
        super_query frameToMetricFindValue MongoDBQueryType_Table q options h
      = Rejected (Error (default [] (message e)))).
Proof.
  intros Hs Hc He. unfold metricFindQuery.
  rewrite Hs, (lastValueFrom_complete stream earlier rsp He Hc).
  unfold promise_then, metricFindQuery_then. split.
  - by intros -> [-> | ->].
  - by intros e ->.
Qed.

End DataSourceClaims.

(** ** Concrete runs *)

(** C2 as stated does not hold: three streams with the same first emission
    give three different results. *)
Lemma first_emission_not_decisive :
  demo_run {| emitted := [rsp_frames [7%nat]]; ending := Complete |}
  = Fulfilled [7%nat]
  /\ demo_run {| emitted := [rsp_frames [7%nat]; rsp_error (lit "boom")];
                 ending := Complete |}
     = Rejected (Error (lit "boom"))
  /\ demo_run {| emitted := [rsp_frames [7%nat]]; ending := Unfinished |}
     = Pending
  /\ demo_run {| emitted := [rsp_frames [7%nat]]; ending := Complete |}
     <> demo_run {| emitted := [rsp_frames [7%nat]; rsp_error (lit "boom")];
                    ending := Complete |}.
Proof. repeat split; vm_compute; try reflexivity. discriminate. Qed.

(** C7 as stated does not hold for every text: after an unfinished macro
    the malformed one is taken as its specifier, so the whole text is one
    match and the malformed macro is not in the output; the replacement
    never arrives at the malformed macro, which lies inside that match. *)
Lemma malformed_macro_swallowed :
  regex_exec customFuncRegex (lit "{{__time_from:date:{{__time_to}}")
  = Some (length (lit "{{__time_from:date:{{__time_to}}"),
          macro_caps TimeFrom (Some (lit "{{__time_to")))
  /\ replaceCustomFunctions any_format
       (lit "{{__time_from:date:{{__time_to}}") (Some tr2021)
     = Ok (lit "formatted")
  /\ replaceCustomFunctions no_format
       (lit "{{__time_from:date:{{__time_to}}") (Some tr2021)
     = Throw (RangeError (lit "Invalid format string"))
  /\ replace_upto customFuncRegex (replacer any_format (Some tr2021)) 0
       (length (lit "{{__time_from:date:"))
       (lit "{{__time_from:date:" ++ lit "{{__time_to}}")
     = None
  /\ (forall out,
        replaceCustomFunctions any_format
          (lit "{{__time_from:date:{{__time_to}}") (Some tr2021)
        <> Ok (out ++ lit "{{__time_to}}")).
Proof.
  assert (replaceCustomFunctions any_format
            (lit "{{__time_from:date:{{__time_to}}") (Some tr2021)
          = Ok (lit "formatted")) as E by (vm_compute; reflexivity).
  split; [vm_compute; reflexivity|]. split; [exact E|].
  split; [vm_compute; reflexivity|]. split; [vm_compute; reflexivity|].
  intros out H. rewrite E in H.
  assert (length (lit "formatted") = length (out ++ lit "{{__time_to}}"))
    as L by congruence.
  rewrite length_app in L.
  change (9%nat = (length out + 13)%nat) in L. lia.
Qed.

(** C10 as stated does not hold for every text: after an unfinished macro
    the macro with the empty specifier is taken as its specifier, and the
    replacement never arrives at it. *)
Lemma empty_specifier_swallowed :
  regex_exec customFuncRegex (lit "{{__time_from:date:{{__time_to:date:}}")
  = Some (length (lit "{{__time_from:date:{{__time_to:date:}}"),
          macro_caps TimeFrom (Some (lit "{{__time_to:date:")))
  /\ replaceCustomFunctions any_format
       (lit "{{__time_from:date:{{__time_to:date:}}") (Some tr2021)
     = Ok (lit "formatted")
  /\ replaceCustomFunctions no_format
       (lit "{{__time_from:date:{{__time_to:date:}}") (Some tr2021)
     = Throw (RangeError (lit "Invalid format string"))
  /\ replace_upto customFuncRegex (replacer any_format (Some tr2021)) 0
       (length (lit "{{__time_from:date:"))
       (lit "{{__time_from:date:" ++ lit "{{__time_to:date:}}")
     = None
  /\ (forall out,
        replaceCustomFunctions any_format
          (lit "{{__time_from:date:{{__time_to:date:}}") (Some tr2021)
        <> Ok (out ++ lit "{{__time_to:date:}}")).
Proof.
  assert (replaceCustomFunctions any_format
            (lit "{{__time_from:date:{{__time_to:date:}}") (Some tr2021)
          = Ok (lit "formatted")) as E by (vm_compute; reflexivity).
  split; [vm_compute; reflexivity|]. split; [exact E|].
  split; [vm_compute; reflexivity|]. split; [vm_compute; reflexivity|].
  intros out H. rewrite E in H.
  assert (length (lit "formatted") = length (out ++ lit "{{__time_to:date:}}"))
    as L by congruence.
  rewrite length_app in L.
  change (9%nat = (length out + 19)%nat) in L. lia.
Qed.

(** The last time value and the first number after it: the date of the
    second is invalid. *)
Lemma rendering_at_the_last_time_value :
  replaceCustomFunctions no_format (lit "{{__time_from:date:milliseconds}}")
    (Some {| from := 8640000000000000; to := 0 |})
  = Ok (lit "8640000000000000")
  /\ replaceCustomFunctions no_format
       (lit "{{__time_from:date:milliseconds}}")
       (Some {| from := 8640000000000001; to := 0 |})
     = Ok (lit "NaN")
  /\ replaceCustomFunctions no_format (lit "{{__time_from:date:seconds}}")
       (Some {| from := 8640000000000001; to := 0 |})
     = Ok (lit "NaN")
  /\ replaceCustomFunctions no_format (lit "{{__time_from:date:toObjectId}}")
       (Some {| from := 8640000000000001; to := 0 |})
     = Ok (lit "NaN0000000000000000")
  /\ replaceCustomFunctions no_format (lit "{{__time_from:date}}")
       (Some {| from := 8640000000000001; to := 0 |})
     = Throw (RangeError (lit "Invalid time value")).
Proof. repeat split; vm_compute; reflexivity. Qed.


(** ** The theorems at concrete inputs *)

Lemma iso_round_trip_witness :
  is_time_value 1609459200123 = true
  /\ (replaceCustomFunctions no_format (lit "{{__time_from:date}}")
        (Some {| from := 1609459200123; to := 0 |})
      = Ok (toISOString 1609459200123)
      /\ iso_shape (toISOString 1609459200123) = true
      /\ Date_parse (toISOString 1609459200123) = Some 1609459200123).
Proof.
  split; [reflexivity|].
  apply (iso_round_trip no_format 1609459200123 0). reflexivity.
Defined.

Lemma malformed_macro_left_unchanged_witness :
  all_space (lit " ") = true
  /\ starts_with (lit ":date") (lit " }}, ok") = false
  /\ replace_upto customFuncRegex (replacer no_format (Some tr2021)) 0
       (length (lit "{{__time_to:date:seconds}} < ts and "))
       (lit "{{__time_to:date:seconds}} < ts and "
        ++ macro_open (lit " ") TimeFrom ++ lit " }}, ok")
     = Some (Ok (lit "1609545600 < ts and "))
  /\ replaceCustomFunctions no_format
       (lit "{{__time_to:date:seconds}} < ts and {{ __time_from }}, ok")
       (Some tr2021)
     = Ok (lit "1609545600 < ts and {{ __time_from }}, ok").
Proof.
  split; [reflexivity|]. split; [reflexivity|]. split; [reflexivity|].
  exact (proj2 (proj2 (malformed_macro_left_unchanged no_format
                         (lit "{{__time_to:date:seconds}} < ts and ")
                         (lit " ") TimeFrom (lit " }}, ok") (Some tr2021)
                         (Ok (lit "1609545600 < ts and "))
                         eq_refl eq_refl eq_refl))
           eq_refl).
Defined.

Lemma empty_specifier_not_matched_witness :
  all_space [] = true
  /\ no_spec_start (lit "}}") = true
  /\ replace_upto customFuncRegex (replacer no_format (Some tr2021)) 0
       (length (lit "from "))
       (lit "from " ++ macro_open [] TimeFrom ++ lit ":date:" ++ lit "}}")
     = Some (Ok (lit "from "))
  /\ replaceCustomFunctions no_format (lit "from {{__time_from:date:}}")
       (Some tr2021)
     = Ok (lit "from {{__time_from:date:}}").
Proof.
  split; [reflexivity|]. split; [reflexivity|]. split; [reflexivity|].
  exact (proj2 (proj2 (empty_specifier_not_matched no_format (lit "from ") []
                         TimeFrom (lit "}}") (Some tr2021)
                         (Ok (lit "from ")) eq_refl eq_refl eq_refl))
           eq_refl).
Defined.



Lemma metricFindQuery_last_emission_witness :
  metricFindQuery_stream nat demo_replace no_format
    (demo_executor stream_error) demo_table 1%positive None demo_heap
  = Ok stream_error
  /\ ending stream_error = Complete
  /\ emitted stream_error = [rsp_frames [7%nat]] ++ [rsp_error (lit "boom")]
  /\ demo_run stream_error = Rejected (Error (lit "boom")).
Proof.
  split; [reflexivity|]. split; [reflexivity|]. split; [reflexivity|].
  exact (proj2 (metricFindQuery_last_emission nat nat demo_replace no_format
                  (demo_executor stream_error) demo_frames demo_table
                  1%positive None demo_heap stream_error eq_refl)
           [rsp_frames [7%nat]] (rsp_error (lit "boom")) eq_refl eq_refl).
Defined.

Lemma metricFindQuery_empty_or_error_witness :
  metricFindQuery_stream nat demo_replace no_format
    (demo_executor stream_empty) demo_table 1%positive None demo_heap
  = Ok stream_empty
  /\ ending stream_empty = Complete
  /\ emitted stream_empty = [rsp_frames [7%nat]] ++ [rsp_frames []]
  /\ error (rsp_frames []) = None
  /\ data (rsp_frames []) = Some []
  /\ demo_run stream_empty = Fulfilled [].
Proof.
  split; [reflexivity|]. split; [reflexivity|]. split; [reflexivity|].
  split; [reflexivity|]. split; [reflexivity|].
  exact (proj1 (metricFindQuery_empty_or_error nat nat demo_replace no_format
                  (demo_executor stream_empty) demo_frames demo_table
                  1%positive None demo_heap stream_empty
                  [rsp_frames [7%nat]] (rsp_frames []) eq_refl eq_refl
                  eq_refl)
           eq_refl (or_intror eq_refl)).
Defined.


Lemma applyTemplateVariables_frame_witness :
  let r := applyTemplateVariables demo_replace 1%positive VUndefined
             demo_targets in
  demo_targets ⊆ r.2
  /\ demo_targets !! 1%positive = Some demo_target
  /\ obj_at r.2 r.1 !! "collection" = Some (VStr [])
  /\ obj_at r.2 r.1 !! "refId" = Some (VStr (lit "A")).
Proof.
  cbv zeta.
  pose proof (applyTemplateVariables_frame demo_replace 1%positive VUndefined
                demo_targets) as H.
  cbv zeta in H. destruct H as (Hsub & _ & Hother & Hthree).
  split; [exact Hsub|]. split; [reflexivity|]. split.
  - destruct (Hthree "collection" (or_intror (or_introl eq_refl)))
      as (s & Hs & Hempty).
    rewrite (Hempty (or_introl eq_refl)) in Hs. exact Hs.
  - rewrite (Hother "refId"); [reflexivity|discriminate..].
Defined.

(** ** The range of [timeToObjectId] *)


Lemma digits_fuel_pad_hex w : forall fuel n acc,
  (w <= fuel)%nat -> 16 ^ Z.of_nat w <= n < 16 ^ Z.of_nat (S w) ->
  digits_fuel fuel 16 n acc = pad_hex (S w) n ++ acc.
Proof.
  induction w as [|w IH]; intros fuel n acc Hf Hn.
  - change (16 ^ Z.of_nat 0) with 1 in Hn. change (16 ^ Z.of_nat 1) with 16 in Hn.
    cbn [pad_hex app].
    destruct fuel as [|fuel]; cbn [digits_fuel].
    + by rewrite Z.mod_small by lia.
    + destruct (Z.ltb_spec n 16); [|lia]. by rewrite Z.mod_small by lia.
  - destruct fuel as [|fuel]; [lia|]. cbn [digits_fuel].
    rewrite !Nat2Z.inj_succ, !Z.pow_succ_r in Hn by lia.
    assert (0 < 16 ^ Z.of_nat w) by (apply Z.pow_pos_nonneg; lia).
    destruct (Z.ltb_spec n 16); [lia|].
    rewrite (IH fuel (n / 16)).
    + change (pad_hex (S (S w)) n)
        with (pad_hex (S w) (n / 16) ++ [digit_char (n mod 16)]).
      by rewrite <- app_assoc.
    + lia.
    + rewrite Nat2Z.inj_succ, Z.pow_succ_r by lia. div_lia.
Qed.

(** From 1978-07-04T21:24:16Z to 2106-02-07T06:28:15Z the seconds have eight
    digits in base 16 and [timeToObjectId] gives 24 characters. *)
Lemma timeToObjectId_in_range t :
  268435456 <= t / 1000 < 4294967296 ->
  timeToObjectId t = pad_hex 8 (t / 1000) ++ lit "0000000000000000"
  /\ length (timeToObjectId t) = 24%nat.
Proof.
  intros Hn.
  assert (timeToObjectId t = pad_hex 8 (t / 1000) ++ lit "0000000000000000")
    as ->.
  { unfold timeToObjectId, floor_div_1000, Number_toString.
    destruct (Z.ltb_spec (t / 1000) 0); [lia|].
    rewrite (digits_fuel_pad_hex 7); [by rewrite app_nil_r| |].
    - assert (28 <= Z.log2 (t / 1000)); [|lia].
      change 28 with (Z.log2 268435456). apply Z.log2_le_mono. lia.
    - change (16 ^ Z.of_nat 7) with 268435456.
      change (16 ^ Z.of_nat 8) with 4294967296. lia. }
  split; [done|]. reflexivity.
Qed.

(** * Further properties *)

(** ** Numbers written and read back *)

Lemma digit_of_char radix d :
  0 <= d < radix -> radix <= 16 -> digit_of radix (digit_char d) = Some d.
Proof.
  intros Hd Hr. unfold digit_of, digit_char.
  destruct (Z.ltb_spec d 10).
  - assert (((48 <=? Z.to_N (48 + d)) && (Z.to_N (48 + d) <=? 57))%N = true)
      as -> by (apply andb_true_intro; split; apply N.leb_le; lia).
    rewrite Z2N.id by lia.
    destruct (Z.ltb_spec (48 + d - 48) radix); [f_equal; lia|lia].
  - assert (((48 <=? Z.to_N (87 + d)) && (Z.to_N (87 + d) <=? 57))%N = false)
      as -> by (apply andb_false_intro2, N.leb_gt; lia).
    assert (((97 <=? Z.to_N (87 + d)) && (Z.to_N (87 + d) <=? 122))%N = true)
      as -> by (apply andb_true_intro; split; apply N.leb_le; lia).
    rewrite Z2N.id by lia.
    destruct (Z.ltb_spec (87 + d - 87) radix); [f_equal; lia|lia].
Qed.

Lemma read_digits_app radix xs : forall acc ys,
  read_digits radix acc (xs ++ ys)
  = match read_digits radix acc xs with
    | Some a => read_digits radix a ys
    | None => None
    end.
Proof.
  induction xs as [|c xs IH]; intros acc ys; [done|]. cbn [app read_digits].
  destruct (digit_of radix c); [apply IH|done].
Qed.

Lemma digits_fuel_acc radix fuel : forall n acc,
  digits_fuel fuel radix n acc = digits_fuel fuel radix n [] ++ acc.
Proof.
  induction fuel as [|fuel IH]; intros n acc; cbn [digits_fuel]; [done|].
  destruct (n <? radix); [done|].
  rewrite IH, (IH _ [_]). by rewrite <- app_assoc.
Qed.

(** Reading the digits of a number gives the number back. *)
Lemma read_digits_fuel radix fuel : forall n,
  2 <= radix <= 16 -> 0 <= n < 2 ^ Z.of_nat (S fuel) ->
  read_digits radix 0 (digits_fuel fuel radix n []) = Some n.
Proof.
  induction fuel as [|fuel IH]; intros n Hr Hn.
  - change (2 ^ Z.of_nat 1) with 2 in Hn. cbn [digits_fuel read_digits].
    rewrite Z.mod_small by lia. rewrite digit_of_char by lia.
    f_equal; lia.
  - cbn [digits_fuel]. destruct (Z.ltb_spec n radix).
    + cbn [read_digits]. rewrite digit_of_char by lia. f_equal; lia.
    + rewrite digits_fuel_acc, read_digits_app.
      rewrite Nat2Z.inj_succ, Z.pow_succ_r in Hn by lia.
      rewrite IH.
      * cbn [read_digits]. rewrite digit_of_char by div_lia.
        f_equal; div_lia.
      * done.
      * split; [apply Z.div_pos; lia|].
        apply Z.div_lt_upper_bound; [lia|]. nia.
Qed.

Lemma log2_fuel n : 0 <= n -> n < 2 ^ Z.of_nat (S (Z.to_nat (Z.log2 n))).
Proof.
  intros Hn. destruct (Z.eq_dec n 0) as [->|Hnz]; [done|].
  pose proof (Z.log2_spec n) as [_ Hlog]; [lia|].
  pose proof (Z.log2_nonneg n).
  rewrite Nat2Z.inj_succ, Z2Nat.id by done. exact Hlog.
Qed.

Lemma read_Number_toString radix n :
  2 <= radix <= 16 -> 0 <= n ->
  read_digits radix 0 (Number_toString radix n) = Some n.
Proof.
  intros Hr Hn. unfold Number_toString.
  destruct (Z.ltb_spec n 0); [lia|].
  apply read_digits_fuel; [done|]. split; [done|]. by apply log2_fuel.
Qed.

Lemma digits_fuel_nonempty fuel radix n acc : digits_fuel fuel radix n acc <> [].
Proof.
  rewrite digits_fuel_acc. destruct fuel; cbn [digits_fuel].
  - done.
  - destruct (n <? radix); [done|]. rewrite digits_fuel_acc.
    by destruct (digits_fuel fuel radix (n / radix) []).
Qed.

Lemma digits_fuel_no_sign fuel radix n :
  0 <= n -> 2 <= radix <= 16 ->
  match digits_fuel fuel radix n [] with
  | c :: _ => (c =? 45)%N = false
  | [] => True
  end.
Proof.
  intros Hn Hr.
  assert (forall d, 0 <= d < 16 -> (digit_char d =? 45)%N = false) as Hd.
  { intros d Hd. unfold digit_char. apply N.eqb_neq.
    destruct (d <? 10); lia. }
  revert n Hn. induction fuel as [|fuel IH]; intros n Hn; cbn [digits_fuel].
  - apply Hd. div_lia.
  - destruct (Z.ltb_spec n radix); [apply Hd; lia|].
    rewrite digits_fuel_acc.
    pose proof (IH (n / radix) ltac:(apply Z.div_pos; lia)) as H'.
    pose proof (digits_fuel_nonempty fuel radix (n / radix) []) as Hne.
    destruct (digits_fuel fuel radix (n / radix) []); [done|]. exact H'.
Qed.

(** An integer written by [Number.prototype.toString] reads back as the
    same integer, in every radix from 2 to 16. *)
Lemma parse_Number_toString radix n :
  2 <= radix <= 16 -> parse_int radix (Number_toString radix n) = Some n.
Proof.
  intros Hr. destruct (Z.ltb_spec n 0) as [Hneg|Hpos].
  - unfold Number_toString. destruct (Z.ltb_spec n 0); [|lia].
    cbn [parse_int]. change (45 =? 45)%N with true. cbv iota.
    pose proof (digits_fuel_nonempty (Z.to_nat (Z.log2 (- n))) radix (- n) [])
      as Hne.
    pose proof (read_digits_fuel radix (Z.to_nat (Z.log2 (- n))) (- n) Hr)
      as Hrd.
    destruct (digits_fuel _ radix (- n) []) as [|c l]; [done|].
    rewrite Hrd; [simpl; f_equal; lia|].
    split; [lia|]. apply log2_fuel. lia.
  - pose proof (read_Number_toString radix n Hr Hpos) as Hrd.
    unfold Number_toString in *. destruct (Z.ltb_spec n 0); [lia|].
    pose proof (digits_fuel_nonempty (Z.to_nat (Z.log2 n)) radix n []) as Hne.
    pose proof (digits_fuel_no_sign (Z.to_nat (Z.log2 n)) radix n Hpos Hr)
      as Hs.
    destruct (digits_fuel _ radix n []) as [|c l]; [done|].
    cbn [parse_int]. by rewrite Hs.
Qed.

(** ** More on the expander *)

Section ExpanderFurther.

Variable format : Z -> str -> result str.

Lemma exec_lone_open : regex_exec customFuncRegex [brace_open] = None.
Proof. reflexivity. Qed.

Lemma no_double_open_end pre :
  no_double_open pre = true -> no_match_before (length pre) pre = true.
Proof.
  induction pre as [|a pre IH]; [done|]. intros Hp.
  cbn [no_double_open] in Hp. apply andb_prop in Hp as [Ha Hp].
  cbn [length no_match_before]. rewrite (IH Hp), andb_true_r.
  destruct (N.eqb_spec brace_open a) as [<-|Hne].
  - destruct pre as [|b pre]; [done|].
    rewrite exec_single_open; [done|]. by destruct (brace_open =? b)%N.
  - rewrite exec_not_open; [done|]. by apply N.eqb_neq.
Qed.

Lemma expand_unmatched s timeRange :
  no_match_before (length s) s = true ->
  replaceCustomFunctions format s timeRange = Ok s.
Proof.
  intros Hn. pose proof (expand_before format timeRange s []) as He.
  rewrite app_nil_r in He. rewrite He by done.
  rewrite expand_nil. cbn [rmap bind]. by rewrite app_nil_r.
Qed.

(** A text in which no match starts comes back as it is, with or without a
    time range; so does every text without two opening braces in a row. *)
Theorem unmatched_text_unchanged s timeRange :
  no_match_before (length s) s = true \/ no_double_open s = true ->
  replaceCustomFunctions format s timeRange = Ok s.
Proof.
  intros H. apply expand_unmatched.
  destruct H; [done|by apply no_double_open_end].
Qed.

(** A text made of plain pieces and well-formed macros expands piece by
    piece, in one pass: the plain pieces are copied, every macro is replaced
    by what the replacer makes of its capture groups, and the first replacer
    that throws ends the expansion. *)
Theorem expansion_piecewise ps timeRange :
  wf_pieces ps = true ->
  replaceCustomFunctions format (pieces_text ps) timeRange
  = expand_pieces format timeRange ps.
Proof.
  induction ps as [|p ps IH]; intros Hwf; [done|].
  destruct p as [s|ws1 k spec ws2]; cbn [wf_pieces] in Hwf.
  - apply andb_prop in Hwf as [[Hs Hnext]%andb_prop Hwf].
    change (pieces_text (Plain s :: ps)) with (s ++ pieces_text ps).
    cbn [expand_pieces]. rewrite <- (IH Hwf).
    destruct ps as [|[s'|ws1 k spec ws2] ps]; [|done|].
    + change (pieces_text []) with (@nil code_unit).
      rewrite app_nil_r, expand_nil.
      rewrite expand_unmatched by (by apply no_double_open_end).
      cbn [bind]. by rewrite app_nil_r.
    + rewrite expand_before; [done|].
      change (pieces_text (Macro ws1 k spec ws2 :: ps))
        with (macro_text ws1 k spec ws2 ++ pieces_text ps).
      unfold macro_text. rewrite <- !app_assoc.
      by apply no_double_open_before.
  - apply andb_prop in Hwf as [[[H1 Hp]%andb_prop H2]%andb_prop Hwf].
    change (pieces_text (Macro ws1 k spec ws2 :: ps))
      with (macro_text ws1 k spec ws2 ++ pieces_text ps).
    rewrite expand_macro by done. cbn [expand_pieces]. by rewrite (IH Hwf).
Qed.

Lemma expand_macro_value ws1 k spec ws2 rest tr v :
  all_space ws1 = true -> wf_spec spec = true -> all_space ws2 = true ->
  replacer format (Some tr) (macro_text ws1 k spec ws2) (macro_caps k spec)
  = Ok v ->
  replaceCustomFunctions format (macro_text ws1 k spec ws2 ++ rest) (Some tr)
  = (let* out := replaceCustomFunctions format rest (Some tr) in
     Ok (v ++ out)).
Proof. intros H1 Hp H2 Hv. rewrite expand_macro by done. by rewrite Hv. Qed.

(** The [seconds] specifier gives the whole seconds of the selected bound,
    a valid time value, in decimal: the text reads back as
    [floor (ms / 1000)], and for a time at or after the epoch it is made of
    decimal digits only. *)
Theorem seconds_macro_reads_back ws1 k ws2 rest tr :
  all_space ws1 = true -> all_space ws2 = true ->
  is_time_value (bound k tr) = true ->
  replaceCustomFunctions format
    (macro_text ws1 k (Some (lit "seconds")) ws2 ++ rest) (Some tr)
  = (let* out := replaceCustomFunctions format rest (Some tr) in
     Ok (Number_toString 10 (bound k tr / 1000) ++ out))
  /\ parse_int 10 (Number_toString 10 (bound k tr / 1000))
     = Some (bound k tr / 1000)
  /\ (0 <= bound k tr ->
      read_digits 10 0 (Number_toString 10 (bound k tr / 1000))
      = Some (bound k tr / 1000)).
Proof.
  intros H1 H2 Ht. split; [|split].
  - apply expand_macro_value; [done..|]. by rewrite replacer_macro_valid.
  - by apply parse_Number_toString.
  - intros Hb. apply read_Number_toString; [done|]. by apply Z.div_pos.
Qed.

(** The [milliseconds] specifier gives the time value of the selected bound,
    a valid time value, in decimal: the text reads back as the time value
    itself. *)
Theorem milliseconds_macro_reads_back ws1 k ws2 rest tr :
  all_space ws1 = true -> all_space ws2 = true ->
  is_time_value (bound k tr) = true ->
  replaceCustomFunctions format
    (macro_text ws1 k (Some (lit "milliseconds")) ws2 ++ rest) (Some tr)
  = (let* out := replaceCustomFunctions format rest (Some tr) in
     Ok (Number_toString 10 (bound k tr) ++ out))
  /\ parse_int 10 (Number_toString 10 (bound k tr)) = Some (bound k tr)
  /\ (0 <= bound k tr ->
      read_digits 10 0 (Number_toString 10 (bound k tr)) = Some (bound k tr)).
Proof.
  intros H1 H2 Ht. split; [|split].
  - apply expand_macro_value; [done..|]. by rewrite replacer_macro_valid.
  - by apply parse_Number_toString.
  - intros Hb. by apply read_Number_toString.
Qed.

(** On a bound that is no time value the date is invalid: the [seconds]
    and [milliseconds] specifiers give [NaN], [toObjectId] gives [NaN]
    before the sixteen zeros, and the ISO rendering throws a
    [RangeError]. *)
Lemma invalid_date_renderings ws1 k ws2 rest tr :
  all_space ws1 = true -> all_space ws2 = true ->
  is_time_value (bound k tr) = false ->
  replaceCustomFunctions format
    (macro_text ws1 k (Some (lit "seconds")) ws2 ++ rest) (Some tr)
  = (let* out := replaceCustomFunctions format rest (Some tr) in
     Ok (lit "NaN" ++ out))
  /\ replaceCustomFunctions format
       (macro_text ws1 k (Some (lit "milliseconds")) ws2 ++ rest) (Some tr)
     = (let* out := replaceCustomFunctions format rest (Some tr) in
        Ok (lit "NaN" ++ out))
  /\ replaceCustomFunctions format
       (macro_text ws1 k (Some (lit "toObjectId")) ws2 ++ rest) (Some tr)
     = (let* out := replaceCustomFunctions format rest (Some tr) in
        Ok (lit "NaN0000000000000000" ++ out))
  /\ replaceCustomFunctions format
       (macro_text ws1 k (Some (lit "iso")) ws2 ++ rest) (Some tr)
     = Throw (RangeError (lit "Invalid time value"))
  /\ replaceCustomFunctions format (macro_text ws1 k None ws2 ++ rest)
       (Some tr)
     = Throw (RangeError (lit "Invalid time value")).
Proof.
  intros H1 H2 Ht. repeat split.
  - apply expand_macro_value; [done..|]. by rewrite replacer_macro_invalid.
  - apply expand_macro_value; [done..|]. by rewrite replacer_macro_invalid.
  - apply expand_macro_value; [done..|]. by rewrite replacer_macro_invalid.
  - rewrite expand_macro by done. by rewrite replacer_macro_invalid.
  - rewrite expand_macro by done. by rewrite replacer_macro_invalid.
Qed.

(** The [iso] specifier and no specifier give the same text, for either
    selector and with white space inside the braces: the ISO 8601 rendering
    of the selected bound, which reads back as that bound. *)
Theorem iso_specifier_reads_back ws1 k spec ws2 rest tr :
  all_space ws1 = true -> all_space ws2 = true ->
  spec = None \/ spec = Some (lit "iso") ->
  is_time_value (bound k tr) = true ->
  replaceCustomFunctions format (macro_text ws1 k spec ws2 ++ rest) (Some tr)
  = (let* out := replaceCustomFunctions format rest (Some tr) in
     Ok (toISOString (bound k tr) ++ out))
  /\ Date_parse (toISOString (bound k tr)) = Some (bound k tr).
Proof.
  intros H1 H2 Hs Ht. split; [|by apply toISOString_parse].
  apply expand_macro_value; [done|by destruct Hs as [-> | ->]|done|].
  rewrite replacer_macro_valid by done. by destruct Hs as [-> | ->].
Qed.

Lemma not_keyword p :
  is_keyword p = false ->
  bool_decide (p = lit "iso") = false
  /\ bool_decide (p = lit "toObjectId") = false
  /\ bool_decide (p = lit "seconds") = false
  /\ bool_decide (p = lit "milliseconds") = false.
Proof.
  unfold is_keyword. intros H.
  apply orb_false_elim in H as [H H4]. apply orb_false_elim in H as [H H3].
  apply orb_false_elim in H as [H1 H2]. done.
Qed.

(** A specifier that is not one of the four keywords, compared exactly, is
    handed to [format] with the selected bound; what [format] returns is
    put in place of the macro, and what it throws ends the expansion. *)
Theorem custom_specifier_uses_format ws1 k p ws2 rest tr :
  all_space ws1 = true -> all_space ws2 = true ->
  is_spec p = true -> is_keyword p = false ->
  replaceCustomFunctions format (macro_text ws1 k (Some p) ws2 ++ rest)
    (Some tr)
  = (let* v := format (bound k tr) p in
     let* out := replaceCustomFunctions format rest (Some tr) in
     Ok (v ++ out))
  /\ (forall e, format (bound k tr) p = Throw e ->
      replaceCustomFunctions format (macro_text ws1 k (Some p) ws2 ++ rest)
        (Some tr) = Throw e).
Proof.
  intros H1 H2 Hp Hk.
  assert (replaceCustomFunctions format (macro_text ws1 k (Some p) ws2 ++ rest)
            (Some tr)
          = (let* v := format (bound k tr) p in
             let* out := replaceCustomFunctions format rest (Some tr) in
             Ok (v ++ out))) as Heq.
  { rewrite expand_macro by done. rewrite replacer_macro.
    destruct (not_keyword p Hk) as (-> & -> & -> & ->).
    unfold is_spec in Hp. apply andb_prop in Hp as [Hne _].
    by destruct (bool_decide (p = [])). }
  split; [done|]. intros e He. by rewrite Heq, He.
Qed.

Lemma expand_macro_no_range pre ws1 k spec ws2 rest :
  all_space ws1 = true -> wf_spec spec = true -> all_space ws2 = true ->
  no_match_before (length pre) (pre ++ macro_text ws1 k spec ws2 ++ rest)
  = true ->
  replaceCustomFunctions format (pre ++ macro_text ws1 k spec ws2 ++ rest) None
  = Throw (TypeError (lit "Cannot read properties of undefined")).
Proof.
  intros H1 Hp H2 Hpre. rewrite expand_before by done.
  by rewrite expand_macro.
Qed.

(** Without a time range the first macro that the replacement arrives at
    makes [replaceCustomFunctions] throw a [TypeError]. *)
Theorem macro_without_range_throws pre ws1 k spec ws2 rest :
  all_space ws1 = true -> wf_spec spec = true -> all_space ws2 = true ->
  no_match_before (length pre) (pre ++ macro_text ws1 k spec ws2 ++ rest)
  = true ->
  exists msg,
    replaceCustomFunctions format (pre ++ macro_text ws1 k spec ws2 ++ rest)
      None = Throw (TypeError msg).
Proof.
  intros H1 Hp H2 Hpre. eexists. by apply expand_macro_no_range.
Qed.

End ExpanderFurther.

(** ** More on [timeToObjectId] *)

Lemma digits_fuel_length_le fuel : forall w n,
  0 <= n < 16 ^ Z.of_nat (S w) ->
  (length (digits_fuel fuel 16 n []) <= S w)%nat.
Proof.
  induction fuel as [|fuel IH]; intros w n Hn; cbn [digits_fuel].
  - simpl. lia.
  - destruct (Z.ltb_spec n 16); [simpl; lia|].
    destruct w as [|w]; [change (16 ^ Z.of_nat 1) with 16 in Hn; lia|].
    rewrite digits_fuel_acc, length_app. cbn [length].
    rewrite (Nat2Z.inj_succ (S w)), Z.pow_succ_r in Hn by lia.
    pose proof (IH w (n / 16)) as H'.
    assert (0 <= n / 16 < 16 ^ Z.of_nat (S w)) as Hq by div_lia.
    specialize (H' Hq). lia.
Qed.

Lemma digits_fuel_length_ge w : forall fuel n,
  (w <= fuel)%nat -> 16 ^ Z.of_nat w <= n ->
  (S w <= length (digits_fuel fuel 16 n []))%nat.
Proof.
  induction w as [|w IH]; intros fuel n Hf Hn.
  - pose proof (digits_fuel_nonempty fuel 16 n []) as Hne.
    destruct (digits_fuel fuel 16 n []); [done|simpl; lia].
  - destruct fuel as [|fuel]; [lia|]. cbn [digits_fuel].
    rewrite Nat2Z.inj_succ, Z.pow_succ_r in Hn by lia.
    assert (0 < 16 ^ Z.of_nat w) by (apply Z.pow_pos_nonneg; lia).
    destruct (Z.ltb_spec n 16); [lia|].
    rewrite digits_fuel_acc, length_app. cbn [length].
    pose proof (IH fuel (n / 16)) as H'.
    assert (16 ^ Z.of_nat w <= n / 16) as Hq by div_lia.
    specialize (H' ltac:(lia) Hq). lia.
Qed.

(** [timeToObjectId] writes the whole seconds of the time in base 16 and
    sixteen zeros after them: the text before the zeros reads back as
    [floor (ms / 1000)].  For a time at or after the epoch the result has
    the 24 characters of an object identifier exactly when the seconds take
    eight digits, from 1978-07-04T21:24:16Z to 2106-02-07T06:28:15Z. *)
Theorem timeToObjectId_length t :
  0 <= t ->
  (exists h, timeToObjectId t = h ++ lit "0000000000000000"
             /\ read_digits 16 0 h = Some (t / 1000))
  /\ (length (timeToObjectId t) = 24%nat
      <-> 268435456 <= t / 1000 < 4294967296).
Proof.
  intros Ht. assert (0 <= t / 1000) as Hs by (by apply Z.div_pos).
  split.
  - exists (Number_toString 16 (t / 1000)). split; [done|].
    by apply read_Number_toString.
  - unfold timeToObjectId, floor_div_1000, Number_toString.
    destruct (Z.ltb_spec (t / 1000) 0); [lia|].
    rewrite length_app. change (length (lit "0000000000000000")) with 16%nat.
    split.
    + intros Hl.
      destruct (Z.lt_ge_cases (t / 1000) 268435456) as [Hlo|Hlo].
      { pose proof (digits_fuel_length_le (Z.to_nat (Z.log2 (t / 1000))) 6
                      (t / 1000)) as H'.
        change (16 ^ Z.of_nat 7) with 268435456 in H'. lia. }
      split; [done|].
      destruct (Z.lt_ge_cases (t / 1000) 4294967296) as [Hhi|Hhi]; [done|].
      pose proof (digits_fuel_length_ge 8 (Z.to_nat (Z.log2 (t / 1000)))
                    (t / 1000)) as H'.
      change (16 ^ Z.of_nat 8) with 4294967296 in H'.
      assert (32 <= Z.log2 (t / 1000)).
      { change 32 with (Z.log2 4294967296). apply Z.log2_le_mono. lia. }
      specialize (H' ltac:(lia) Hhi). lia.
    + intros Hr.
      pose proof (digits_fuel_length_le (Z.to_nat (Z.log2 (t / 1000))) 7
                    (t / 1000)) as Hle.
      change (16 ^ Z.of_nat 8) with 4294967296 in Hle.
      pose proof (digits_fuel_length_ge 7 (Z.to_nat (Z.log2 (t / 1000)))
                    (t / 1000)) as Hge.
      change (16 ^ Z.of_nat 7) with 268435456 in Hge.
      assert (28 <= Z.log2 (t / 1000)).
      { change 28 with (Z.log2 268435456). apply Z.log2_le_mono. lia. }
      specialize (Hle ltac:(lia)). specialize (Hge ltac:(lia) ltac:(lia)).
      lia.
Qed.

(** ** More on the data source *)

Section DataSourceFurther.

Variables DataFrame MetricFindValue : Type.
Variable templateSrv_replace : value -> value -> bool -> str.
Variable format : Z -> str -> result str.
Variable super_query : heap -> loc -> Observable (DataQueryResponse DataFrame).
Variable frameToMetricFindValue : DataFrame -> list MetricFindValue.
Variable MongoDBQueryType_Table : value.

Lemma obj_at_insert (h : heap) l (o : obj) : obj_at (<[l := o]> h) l = o.
Proof. unfold obj_at. by rewrite lookup_insert_eq. Qed.

Lemma get_insert (o : obj) f v : get (<[f := v]> o) f = v.
Proof. unfold get. by rewrite lookup_insert_eq. Qed.

Lemma applyTemplateVariables_alloc t scopedVars (h : heap) :
  applyTemplateVariables templateSrv_replace t scopedVars h
  = alloc (template_fields templateSrv_replace (obj_at h t) scopedVars) h.
Proof.
  unfold applyTemplateVariables, template_fields, substituted.
  by destruct (truthy (get (obj_at h t) "aggregation")),
    (truthy (get (obj_at h t) "collection")),
    (truthy (get (obj_at h t) "database")).
Qed.

(** One target: a new object is made from the fields of the target, and its
    aggregation is the expansion of the substituted aggregation. *)
Lemma process_target_ref timeRange scopedVars t (h : heap) :
  process_target templateSrv_replace format timeRange scopedVars (VRef t) h
  = (let* a := replaceCustomFunctions format
                 (substituted templateSrv_replace (obj_at h t) scopedVars
                    "aggregation" true) timeRange in
     Ok (VRef (fresh (dom h)),
         <[fresh (dom h) :=
             <["aggregation" := VStr a]>
               (template_fields templateSrv_replace (obj_at h t)
                  scopedVars)]> h)).
Proof.
  unfold process_target. rewrite applyTemplateVariables_alloc.
  unfold alloc. cbv zeta. rewrite obj_at_insert.
  unfold template_fields at 1. rewrite get_insert.
  destruct (replaceCustomFunctions format _ timeRange); [|done].
  cbn [bind]. unfold set_prop. rewrite obj_at_insert.
  by rewrite insert_insert_eq.
Qed.

Lemma obj_at_weaken (h h' : heap) l :
  h ⊆ h' -> is_Some (h !! l) -> obj_at h' l = obj_at h l.
Proof.
  intros Hsub [o Ho]. unfold obj_at.
  by rewrite Ho, (lookup_weaken _ _ _ _ Ho Hsub).
Qed.

Lemma allocated_weaken (h h' : heap) v :
  h ⊆ h' -> allocated h v -> allocated h' v.
Proof.
  intros Hsub. destruct v; try done. cbn [allocated].
  intros [o Ho]. exists o. by eapply lookup_weaken.
Qed.

Lemma Forall2_impl_l {A B} (P : A -> Prop) (R R' : A -> B -> Prop) l k :
  Forall P l -> Forall2 R l k ->
  (forall x y, P x -> R x y -> R' x y) -> Forall2 R' l k.
Proof.
  intros HP HR Himp. induction HR as [|x y l k Hxy HR IH]; [constructor|].
  inversion HP; subst. constructor; [by apply Himp|by apply IH].
Qed.

Lemma rewritten_target_weaken timeRange scopedVars (h h1 h' : heap) t p :
  h ⊆ h1 -> allocated h t ->
  rewritten_target templateSrv_replace format timeRange scopedVars h1 h' t p ->
  rewritten_target templateSrv_replace format timeRange scopedVars h h' t p.
Proof.
  intros Hsub Hal (lt & lp & a & -> & -> & Hnew & Ha & Hp).
  cbn [allocated] in Hal. rewrite (obj_at_weaken h h1 lt Hsub Hal) in Ha, Hp.
  exists lt, lp, a. repeat split; try done.
  by eapply lookup_weaken_None.
Qed.

(** The targets are rewritten one by one, each into a new object, and the
    objects of the store stay as they are. *)
Lemma process_targets_spec timeRange scopedVars ts : forall (h : heap) ps h',
  Forall (allocated h) ts ->
  process_targets templateSrv_replace format timeRange scopedVars ts h
  = Ok (ps, h') ->
  h ⊆ h'
  /\ Forall2 (rewritten_target templateSrv_replace format timeRange scopedVars
                h h') ts ps.
Proof.
  induction ts as [|t ts IH]; intros h ps h' Hal Hrun.
  - injection Hrun as <- <-. split; [done|constructor].
  - cbn [process_targets] in Hrun. inversion Hal as [|? ? Ht Hts]; subst.
    destruct t as [| | | | | | |lt]; try done.
    rewrite process_target_ref in Hrun.
    destruct (replaceCustomFunctions format _ timeRange) as [a|] eqn:Ea;
      [|done].
    cbn [bind fst snd] in Hrun.
    set (p := fresh (dom h)) in *.
    set (o := <["aggregation" := VStr a]>
                (template_fields templateSrv_replace (obj_at h lt)
                   scopedVars)) in *.
    assert (h !! p = None) as Hp by apply not_elem_of_dom, is_fresh.
    assert (h ⊆ <[p := o]> h) as Hsub by (by apply insert_subseteq).
    destruct (process_targets templateSrv_replace format timeRange scopedVars
                ts (<[p := o]> h)) as [[ps' h'']|] eqn:Er; [|done].
    cbn [bind fst snd] in Hrun. injection Hrun as <- <-.
    destruct (IH _ _ _ (Forall_impl _ _ _ Hts
                           (fun v => allocated_weaken h _ v Hsub)) Er)
      as [Hsub' Hrel].
    split; [by etrans|]. constructor.
    + exists lt, p, a. repeat split; try done.
      eapply lookup_weaken; [apply lookup_insert_eq|done].
    + eapply Forall2_impl_l; [exact Hts|exact Hrel|].
      intros x y Hx Hxy. by eapply rewritten_target_weaken.
Qed.

Lemma get_VArr (o : obj) f ts : get o f = VArr ts -> o !! f = Some (VArr ts).
Proof. unfold get. destruct (o !! f); simpl; [by intros ->|done]. Qed.

(** [query] rewrites every target into a new object and hands the executor
    a new request with the rewritten targets in the order of the targets and
    the other fields of the request; no object of the store is changed, the
    request and its targets among them. *)
Theorem query_rewrites_targets request (h : heap) ts l h' :
  get (obj_at h request) "targets" = VArr ts ->
  Forall (allocated h) ts ->
  query_request templateSrv_replace format request h = Ok (l, h') ->
  h ⊆ h'
  /\ h !! l = None
  /\ (forall f, f <> "targets" ->
      obj_at h' l !! f = obj_at h request !! f)
  /\ exists ps,
      obj_at h' l !! "targets" = Some (VArr ps)
      /\ Forall2 (rewritten_target templateSrv_replace format
                    (range_of (get (obj_at h request) "range"))
                    (get (obj_at h request) "scopedVars") h h') ts ps.
Proof.
  intros Hts Hal Hrun. unfold query_request in Hrun. rewrite Hts in Hrun.
  destruct (process_targets _ _ _ _ ts h) as [[ps h1]|] eqn:Er; [|done].
  cbn [bind fst snd] in Hrun. injection Hrun as <- <-.
  destruct (process_targets_spec _ _ _ _ _ _ Hal Er) as [Hsub Hrel].
  set (req' := <["targets" := VArr ps]> (obj_at h request)).
  assert (h1 !! fresh (dom h1) = None) as Hnew
    by apply not_elem_of_dom, is_fresh.
  assert (h1 ⊆ <[fresh (dom h1) := req']> h1) as Hsub1
    by (by apply insert_subseteq).
  split; [by etrans|]. split; [by eapply lookup_weaken_None|].
  rewrite obj_at_insert. split.
  - intros f Hf. unfold req'. by rewrite lookup_insert_ne.
  - exists ps. split; [apply lookup_insert_eq|].
    eapply Forall2_impl; [exact Hrel|].
    intros x y (lt & lp & a & -> & -> & Hp & Ha & Hlp).
    exists lt, lp, a. repeat split; try done.
    by eapply lookup_weaken.
Qed.

(** The rewritten targets keep the fields of the targets other than the
    three text fields, the [refId] among them. *)
Theorem rewritten_target_fields timeRange scopedVars (h h' : heap) t p :
  rewritten_target templateSrv_replace format timeRange scopedVars h h' t p ->
  exists lt lp,
    t = VRef lt /\ p = VRef lp
    /\ (forall f, f <> "database" -> f <> "collection" ->
        f <> "aggregation" -> obj_at h' lp !! f = obj_at h lt !! f)
    /\ obj_at h' lp !! "database"
       = Some (VStr (substituted templateSrv_replace (obj_at h lt) scopedVars
                       "database" false))
    /\ obj_at h' lp !! "collection"
       = Some (VStr (substituted templateSrv_replace (obj_at h lt) scopedVars
                       "collection" false))
    /\ exists a,
        obj_at h' lp !! "aggregation" = Some (VStr a)
        /\ replaceCustomFunctions format
             (substituted templateSrv_replace (obj_at h lt) scopedVars
                "aggregation" true) timeRange = Ok a.
Proof.
  intros (lt & lp & a & -> & -> & Hp & Ha & Hlp).
  exists lt, lp.
  assert (obj_at h' lp
          = <["aggregation" := VStr a]>
              (template_fields templateSrv_replace (obj_at h lt) scopedVars))
    as -> by (unfold obj_at; by rewrite Hlp).
  unfold template_fields. split; [done|]. split; [done|]. split; [|split; [|split]].
  - intros f H1 H2 H3. by rewrite !lookup_insert_ne.
  - rewrite !lookup_insert_ne by done. apply lookup_insert_eq.
  - rewrite !lookup_insert_ne by done. apply lookup_insert_eq.
  - exists a. split; [apply lookup_insert_eq|done].
Qed.

Lemma target_throws_weaken timeRange scopedVars (h h1 : heap) t :
  h ⊆ h1 -> allocated h t ->
  target_throws templateSrv_replace format timeRange scopedVars h t ->
  target_throws templateSrv_replace format timeRange scopedVars h1 t.
Proof.
  intros Hsub Hal. destruct t; try done. cbn [allocated target_throws] in *.
  by rewrite (obj_at_weaken h h1 _ Hsub Hal).
Qed.

Lemma process_targets_throws timeRange scopedVars ts : forall (h : heap),
  Forall (allocated h) ts ->
  Exists (target_throws templateSrv_replace format timeRange scopedVars h) ts ->
  exists e,
    process_targets templateSrv_replace format timeRange scopedVars ts h
    = Throw e.
Proof.
  induction ts as [|t ts IH]; intros h Hal Hex; [by inversion Hex|].
  inversion Hal as [|? ? Ht Hts]; subst. cbn [process_targets].
  destruct t as [| | | | | | |lt]; try by eexists.
  rewrite process_target_ref.
  destruct (replaceCustomFunctions format _ timeRange) as [a|e] eqn:Ea;
    [|by exists e].
  cbn [bind fst snd].
  set (h1 := <[fresh (dom h) := _]> h).
  assert (h ⊆ h1) as Hsub
    by (apply insert_subseteq, not_elem_of_dom, is_fresh).
  destruct (IH h1) as [e He].
  - eapply Forall_impl; [exact Hts|]. intros v. by apply allocated_weaken.
  - inversion Hex as [? ? Hhead|? ? Htail]; subst.
    + cbn [target_throws] in Hhead. destruct Hhead as [e He].
      rewrite Ea in He. done.
    + apply Exists_exists in Htail as (v & Hin & Hv).
      apply Exists_exists. exists v. split; [done|].
      eapply target_throws_weaken; [done| |done].
      by eapply (proj1 (Forall_forall _ _) Hts).
  - exists e. by rewrite He.
Qed.

(** When the aggregation of one of the targets cannot be expanded ([format]
    throws, or a macro finds no time range), [query] throws, and no request
    reaches the executor. *)
Theorem query_throws_on_target request (h : heap) ts :
  get (obj_at h request) "targets" = VArr ts ->
  Forall (allocated h) ts ->
  Exists (target_throws templateSrv_replace format
            (range_of (get (obj_at h request) "range"))
            (get (obj_at h request) "scopedVars") h) ts ->
  exists e,
    query DataFrame templateSrv_replace format super_query request h
    = Throw e.
Proof.
  intros Hts Hal Hex. unfold query, query_request. rewrite Hts.
  destruct (process_targets_throws _ _ _ _ Hal Hex) as [e He].
  exists e. by rewrite He.
Qed.

(** When the targets can all be expanded, [query] returns the stream that
    the executor gives for the rewritten request, as it is. *)
Theorem query_returns_executor_stream request (h : heap) l h' :
  query_request templateSrv_replace format request h = Ok (l, h') ->
  query DataFrame templateSrv_replace format super_query request h
  = Ok (super_query h' l).
Proof. intros Hr. unfold query. by rewrite Hr. Qed.

(** *** The variable query *)

Lemma get_insert_ne (o : obj) f g v : f <> g -> get (<[f := v]> o) g = get o g.
Proof. intros Hne. unfold get. by rewrite lookup_insert_ne. Qed.

Lemma metricFindQuery_target_get (q : obj) f :
  f = "database" \/ f = "collection" \/ f = "aggregation" ->
  get (metricFindQuery_target MongoDBQueryType_Table q) f = get q f.
Proof.
  unfold metricFindQuery_target.
  intros [->|[->| ->]]; rewrite !get_insert_ne by done; apply get_insert.
Qed.

Lemma substituted_target (q : obj) scopedVars f json :
  f = "database" \/ f = "collection" \/ f = "aggregation" ->
  substituted templateSrv_replace
    (metricFindQuery_target MongoDBQueryType_Table q) scopedVars f json
  = substituted templateSrv_replace q scopedVars f json.
Proof.
  intros Hf. unfold substituted. by rewrite metricFindQuery_target_get.
Qed.

Lemma options_object_weaken (h h' : heap) options :
  h ⊆ h' -> (forall o, options = Some o -> is_Some (h !! o)) ->
  options_object h' options = options_object h options.
Proof.
  intros Hsub Hal. destruct options as [o|]; [|done].
  apply obj_at_weaken; [done|]. by apply Hal.
Qed.

(** What [metricFindQuery] gets from [query]: the error of the expansion of
    the aggregation, or the stream of the executor for a request that
    spreads the options and holds one target, the rewritten synthetic
    target. *)
Lemma metricFindQuery_stream_cases q options (h : heap) :
  (forall o, options = Some o -> is_Some (h !! o)) ->
  let opts := options_object h options in
  let target := metricFindQuery_target MongoDBQueryType_Table (obj_at h q) in
  match replaceCustomFunctions format
          (substituted templateSrv_replace (obj_at h q)
             (get opts "scopedVars") "aggregation" true)
          (range_of (get opts "range")) with
  | Throw e =>
      metricFindQuery_stream DataFrame templateSrv_replace format super_query
        MongoDBQueryType_Table q options h = Throw e
  | Ok a =>
      exists l h' p,
        metricFindQuery_stream DataFrame templateSrv_replace format
          super_query MongoDBQueryType_Table q options h
        = Ok (super_query h' l)
        /\ h ⊆ h'
        /\ obj_at h' l = <["targets" := VArr [VRef p]]> opts
        /\ obj_at h' p
           = <["aggregation" := VStr a]>
               (template_fields templateSrv_replace target
                  (get opts "scopedVars"))
  end.
Proof.
  intros Hal opts target.
  remember (metricFindQuery_stream DataFrame templateSrv_replace format
              super_query MongoDBQueryType_Table q options h) as S eqn:HS.
  unfold metricFindQuery_stream, metricFindQuery_request, alloc in HS.
  cbv zeta in HS. fold target in HS.
  fold (options_object (<[fresh (dom h) := target]> h) options) in HS.
  set (t := fresh (dom h)) in *. set (h1 := <[t := target]> h) in *.
  assert (h !! t = None) as Ht by apply not_elem_of_dom, is_fresh.
  assert (h ⊆ h1) as Hsub1 by (by apply insert_subseteq).
  rewrite (options_object_weaken h h1 options Hsub1 Hal) in HS.
  fold opts in HS.
  set (r := fresh (dom h1)) in *.
  set (req := <["targets" := VArr [VRef t]]> opts) in *.
  set (h2 := <[r := req]> h1) in *.
  assert (h1 !! r = None) as Hr by apply not_elem_of_dom, is_fresh.
  assert (h1 ⊆ h2) as Hsub2 by (by apply insert_subseteq).
  assert (obj_at h2 t = target) as Hobj.
  { unfold obj_at.
    by rewrite (lookup_weaken h1 h2 t target (lookup_insert_eq _ _ _) Hsub2). }
  assert (obj_at h2 r = req) as Hreq by apply obj_at_insert.
  unfold query, query_request in HS. rewrite Hreq in HS.
  assert (get req "targets" = VArr [VRef t]) as Htargets by apply get_insert.
  rewrite Htargets in HS.
  assert (get req "range" = get opts "range") as Hrange
    by (by apply get_insert_ne).
  assert (get req "scopedVars" = get opts "scopedVars") as Hvars
    by (by apply get_insert_ne).
  rewrite Hrange, Hvars in HS.
  cbn [process_targets] in HS. rewrite process_target_ref, Hobj in HS.
  unfold target at 1 in HS. rewrite substituted_target in HS by auto.
  destruct (replaceCustomFunctions format _ (range_of (get opts "range")))
    as [a|e]; cbn [bind fst snd] in HS; [|done].
  set (p := fresh (dom h2)) in *.
  set (o := <["aggregation" := VStr a]> _) in HS.
  set (h3 := <[p := o]> h2) in *.
  assert (h2 !! p = None) as Hp by apply not_elem_of_dom, is_fresh.
  assert (h2 ⊆ h3) as Hsub3 by (by apply insert_subseteq).
  unfold alloc in HS. cbn [fst snd] in HS.
  set (l := fresh (dom h3)) in *.
  assert (h3 !! l = None) as Hl by apply not_elem_of_dom, is_fresh.
  exists l, (<[l := <["targets" := VArr [VRef p]]> req]> h3), p.
  split; [done|]. split.
  { etrans; [exact Hsub1|]. etrans; [exact Hsub2|]. etrans; [exact Hsub3|].
    by apply insert_subseteq. }
  split.
  - rewrite obj_at_insert. unfold req. by rewrite insert_insert_eq.
  - unfold obj_at. rewrite lookup_insert_ne.
    + unfold h3. by rewrite lookup_insert_eq.
    + intros E. apply (f_equal (fun x => h3 !! x)) in E.
      rewrite Hl in E. unfold h3 in E. by rewrite lookup_insert_eq in E.
Qed.

(** The executor of a variable query gets a request with the fields of the
    options and exactly one target: a new object with the fields of the
    synthetic target ([refId] "metricFindQuery" among them), the database
    and the collection of the variable query after substitution, and its
    aggregation after substitution and expansion.  No object of the store
    is changed. *)
Theorem metricFindQuery_executor_request q options (h : heap) stream :
  (forall o, options = Some o -> is_Some (h !! o)) ->
  metricFindQuery_stream DataFrame templateSrv_replace format super_query
    MongoDBQueryType_Table q options h = Ok stream ->
  let opts := options_object h options in
  let scopedVars := get opts "scopedVars" in
  exists l h' p a,
    stream = super_query h' l
    /\ h ⊆ h'
    /\ obj_at h' l = <["targets" := VArr [VRef p]]> opts
    /\ replaceCustomFunctions format
         (substituted templateSrv_replace (obj_at h q) scopedVars
            "aggregation" true) (range_of (get opts "range")) = Ok a
    /\ obj_at h' p
       = <["aggregation" := VStr a]>
        (<["collection" :=
             VStr (substituted templateSrv_replace (obj_at h q) scopedVars
                     "collection" false)]>
        (<["database" :=
             VStr (substituted templateSrv_replace (obj_at h q) scopedVars
                     "database" false)]>
           (metricFindQuery_target MongoDBQueryType_Table (obj_at h q))))
    /\ obj_at h' p !! "refId" = Some (VStr (lit "metricFindQuery")).
Proof.
  intros Hal Hs opts scopedVars.
  pose proof (metricFindQuery_stream_cases q options h Hal) as Hc.
  cbv zeta in Hc. fold opts in Hc. fold scopedVars in Hc.
  destruct (replaceCustomFunctions format _ (range_of (get opts "range")))
    as [a|e] eqn:Ea; [|by rewrite Hc in Hs].
  destruct Hc as (l & h' & p & Hstream & Hsub & Hl & Hp).
  rewrite Hstream in Hs. injection Hs as <-.
  exists l, h', p, a.
  split; [done|]. split; [done|]. split; [done|]. split; [done|].
  rewrite Hp. unfold template_fields.
  rewrite insert_insert_eq, !substituted_target by auto.
  split; [done|]. unfold metricFindQuery_target.
  rewrite !lookup_insert_ne by done. apply lookup_insert_eq.
Qed.

Lemma metricFindQuery_rejected q options (h : heap) e :
  (forall o, options = Some o -> is_Some (h !! o)) ->
  replaceCustomFunctions format
    (substituted templateSrv_replace (obj_at h q)
       (get (options_object h options) "scopedVars") "aggregation" true)
    (range_of (get (options_object h options) "range")) = Throw e ->
  metricFindQuery DataFrame MetricFindValue templateSrv_replace format
    super_query frameToMetricFindValue MongoDBQueryType_Table q options h
  = Rejected e.
Proof.
  intros Hal He.
  pose proof (metricFindQuery_stream_cases q options h Hal) as Hc.
  cbv zeta in Hc. rewrite He in Hc. unfold metricFindQuery. by rewrite Hc.
Qed.

(** When the aggregation of a variable query cannot be expanded, the promise
    of [metricFindQuery] is rejected with what the expansion throws; the
    executor is not asked. *)
Theorem metricFindQuery_rejects_bad_aggregation q options (h : heap) e :
  (forall o, options = Some o -> is_Some (h !! o)) ->
  replaceCustomFunctions format
    (substituted templateSrv_replace (obj_at h q)
       (get (options_object h options) "scopedVars") "aggregation" true)
    (range_of (get (options_object h options) "range")) = Throw e ->
  metricFindQuery DataFrame MetricFindValue templateSrv_replace format
    super_query frameToMetricFindValue MongoDBQueryType_Table q options h
  = Rejected e.
Proof. apply metricFindQuery_rejected. Qed.

(** A variable query whose aggregation holds a well-formed macro needs a
    time range: without options, or with options that have no range, the
    promise is rejected with a [TypeError]. *)
Theorem metricFindQuery_needs_range q options (h : heap)
  pre ws1 k spec ws2 rest :
  (forall o, options = Some o -> is_Some (h !! o)) ->
  range_of (get (options_object h options) "range") = None ->
  substituted templateSrv_replace (obj_at h q)
    (get (options_object h options) "scopedVars") "aggregation" true
  = pre ++ macro_text ws1 k spec ws2 ++ rest ->
  all_space ws1 = true -> wf_spec spec = true -> all_space ws2 = true ->
  no_match_before (length pre) (pre ++ macro_text ws1 k spec ws2 ++ rest)
  = true ->
  exists msg,
    metricFindQuery DataFrame MetricFindValue templateSrv_replace format
      super_query frameToMetricFindValue MongoDBQueryType_Table q options h
    = Rejected (TypeError msg).
Proof.
  intros Hal Hrange Hagg H1 Hp H2 Hpre. eexists.
  apply metricFindQuery_rejected; [done|]. rewrite Hrange, Hagg.
  by apply expand_macro_no_range.
Qed.

(** When the last response has no error and at least one frame, the result
    is the value list of its first frame; the other frames are left out. *)
Theorem metricFindQuery_first_frame q options (h : heap) stream earlier
  frame more :
  metricFindQuery_stream DataFrame templateSrv_replace format super_query
    MongoDBQueryType_Table q options h = Ok stream ->
  ending stream = Complete ->
  emitted stream
  = earlier ++ [{| data := Some (frame :: more); error := None |}] ->
  metricFindQuery DataFrame MetricFindValue templateSrv_replace format
    super_query frameToMetricFindValue MongoDBQueryType_Table q options h
  = Fulfilled (frameToMetricFindValue frame).
Proof.
  intros Hs Hc He. unfold metricFindQuery.
  by rewrite Hs, (lastValueFrom_complete _ earlier _ He Hc).
Qed.

(** A stream that ends with an error rejects the promise with that error,
    whatever it has emitted; a stream that completes without a response
    rejects it with [EmptyError]. *)
Theorem metricFindQuery_stream_failure q options (h : heap) stream :
  metricFindQuery_stream DataFrame templateSrv_replace format super_query
    MongoDBQueryType_Table q options h = Ok stream ->
  (forall e, ending stream = Errored e ->
     metricFindQuery DataFrame MetricFindValue templateSrv_replace format
       super_query frameToMetricFindValue MongoDBQueryType_Table q options h
     = Rejected e)
  /\ (ending stream = Complete -> emitted stream = [] ->
      metricFindQuery DataFrame MetricFindValue templateSrv_replace format
        super_query frameToMetricFindValue MongoDBQueryType_Table q options h
      = Rejected EmptyError).
Proof.
  intros Hs. unfold metricFindQuery, lastValueFrom. rewrite Hs. split.
  - by intros e ->.
  - by intros -> ->.
Qed.

End DataSourceFurther.

(** ** The further theorems at concrete inputs *)

Lemma expansion_piecewise_witness :
  wf_pieces [Plain (lit "{from: ");
             Macro (lit " ") TimeFrom (Some (lit "seconds")) (lit " ");
             Plain (lit ", to: ");
             Macro [] TimeTo (Some (lit "milliseconds")) [];
             Plain (lit "}")] = true
  /\ replaceCustomFunctions no_format
       (lit "{from: {{ __time_from:date:seconds }}, to: {{__time_to:date:milliseconds}}}")
       (Some tr2021)
     = Ok (lit "{from: 1609459200, to: 1609545600123}").
Proof.
  split; [reflexivity|].
  exact (expansion_piecewise no_format
           [Plain (lit "{from: ");
            Macro (lit " ") TimeFrom (Some (lit "seconds")) (lit " ");
            Plain (lit ", to: ");
            Macro [] TimeTo (Some (lit "milliseconds")) [];
            Plain (lit "}")] (Some tr2021) eq_refl).
Defined.

Lemma unmatched_text_unchanged_witness :
  no_double_open (lit "[{$match: {level: {$gte: 3}}}]") = true
  /\ replaceCustomFunctions no_format (lit "[{$match: {level: {$gte: 3}}}]")
       None
     = Ok (lit "[{$match: {level: {$gte: 3}}}]").
Proof.
  split; [reflexivity|].
  apply (unmatched_text_unchanged no_format
           (lit "[{$match: {level: {$gte: 3}}}]") None).
  right. reflexivity.
Defined.

Lemma seconds_macro_reads_back_witness :
  all_space (lit " ") = true
  /\ all_space [] = true
  /\ is_time_value (bound TimeTo tr2021) = true
  /\ replaceCustomFunctions no_format (lit "{{ __time_to:date:seconds}}")
       (Some tr2021)
     = Ok (lit "1609545600")
  /\ 0 <= bound TimeTo tr2021
  /\ read_digits 10 0 (lit "1609545600") = Some 1609545600.
Proof.
  assert (0 <= bound TimeTo tr2021) as Hpos by (vm_compute; discriminate).
  pose proof (seconds_macro_reads_back no_format (lit " ") TimeTo [] []
                tr2021 eq_refl eq_refl eq_refl) as (Hexp & _ & Hread).
  specialize (Hread Hpos).
  vm_compute in Hexp. vm_compute in Hread.
  split; [reflexivity|]. split; [reflexivity|]. split; [reflexivity|].
  split; [vm_compute; exact Hexp|]. split; [exact Hpos|].
  vm_compute. exact Hread.
Defined.

Lemma milliseconds_macro_reads_back_witness :
  all_space (lit " ") = true
  /\ all_space [] = true
  /\ is_time_value (bound TimeTo tr2021) = true
  /\ replaceCustomFunctions no_format
       (lit "{{ __time_to:date:milliseconds}}") (Some tr2021)
     = Ok (lit "1609545600123")
  /\ parse_int 10 (lit "1609545600123") = Some 1609545600123.
Proof.
  pose proof (milliseconds_macro_reads_back no_format (lit " ") TimeTo [] []
                tr2021 eq_refl eq_refl eq_refl) as (Hexp & Hparse & _).
  vm_compute in Hexp. vm_compute in Hparse.
  split; [reflexivity|]. split; [reflexivity|]. split; [reflexivity|].
  split; [vm_compute; exact Hexp|]. vm_compute. exact Hparse.
Defined.

Lemma iso_specifier_reads_back_witness :
  all_space (lit " ") = true
  /\ all_space (lit " ") = true
  /\ Some (lit "iso") = Some (lit "iso")
  /\ is_time_value (bound TimeTo tr2021) = true
  /\ replaceCustomFunctions no_format (lit "{{ __time_to:date:iso }}")
       (Some tr2021)
     = Ok (lit "2021-01-02T00:00:00.123Z").
Proof.
  split; [reflexivity|]. split; [reflexivity|]. split; [reflexivity|].
  split; [reflexivity|].
  exact (proj1 (iso_specifier_reads_back no_format (lit " ") TimeTo
                  (Some (lit "iso")) (lit " ") [] tr2021 eq_refl eq_refl
                  (or_intror eq_refl) eq_refl)).
Defined.

Lemma custom_specifier_uses_format_witness :
  all_space [] = true
  /\ all_space [] = true
  /\ is_spec (lit "ISO") = true
  /\ is_keyword (lit "ISO") = false
  /\ replaceCustomFunctions no_format (lit "{{__time_from:date:ISO}}")
       (Some tr2021)
     = Throw (RangeError (lit "Invalid format string")).
Proof.
  split; [reflexivity|]. split; [reflexivity|]. split; [reflexivity|].
  split; [reflexivity|].
  exact (proj2 (custom_specifier_uses_format no_format [] TimeFrom
                  (lit "ISO") [] [] tr2021 eq_refl eq_refl eq_refl eq_refl)
           _ eq_refl).
Defined.

Lemma macro_without_range_throws_witness :
  all_space [] = true
  /\ wf_spec None = true
  /\ all_space [] = true
  /\ no_match_before (length (lit "ts > "))
       (lit "ts > " ++ macro_text [] TimeFrom None [] ++ lit " ...") = true
  /\ exists msg,
       replaceCustomFunctions no_format
         (lit "ts > " ++ macro_text [] TimeFrom None [] ++ lit " ...") None
       = Throw (TypeError msg).
Proof.
  split; [reflexivity|]. split; [reflexivity|]. split; [reflexivity|].
  split; [reflexivity|].
  apply (macro_without_range_throws no_format (lit "ts > ") [] TimeFrom None
           [] (lit " ...")); reflexivity.
Defined.

Lemma timeToObjectId_length_witness :
  0 <= 1609459200000
  /\ (length (timeToObjectId 1609459200000) = 24%nat
      <-> 268435456 <= 1609459200000 / 1000 < 4294967296).
Proof.
  split; [vm_compute; discriminate|].
  apply (timeToObjectId_length 1609459200000). vm_compute. discriminate.
Defined.

Lemma query_rewrites_targets_witness :
  get (obj_at demo_requests 2%positive) "targets" = VArr [VRef 1%positive]
  /\ Forall (allocated demo_requests) [VRef 1%positive]
  /\ query_request demo_replace no_format 2%positive demo_requests
     = Ok (demo_rewritten.1, demo_rewritten.2)
  /\ demo_requests ⊆ demo_rewritten.2
  /\ obj_at demo_rewritten.2 demo_rewritten.1 !! "requestId"
     = Some (VStr (lit "Q100")).
Proof.
  assert (Forall (allocated demo_requests) [VRef 1%positive]) as Hal.
  { constructor; [|constructor]. eexists. reflexivity. }
  assert (query_request demo_replace no_format 2%positive demo_requests
          = Ok (demo_rewritten.1, demo_rewritten.2)) as Hrun.
  { vm_compute. reflexivity. }
  split; [reflexivity|]. split; [exact Hal|]. split; [exact Hrun|].
  destruct (query_rewrites_targets demo_replace no_format 2%positive
              demo_requests [VRef 1%positive] demo_rewritten.1
              demo_rewritten.2 eq_refl Hal Hrun) as (Hsub & _ & Hf & _).
  split; [exact Hsub|].
  rewrite (Hf "requestId"); [reflexivity|discriminate].
Defined.

Lemma query_throws_on_target_witness :
  get (obj_at demo_requests 3%positive) "targets" = VArr [VRef 1%positive]
  /\ Forall (allocated demo_requests) [VRef 1%positive]
  /\ Exists (target_throws demo_replace no_format
              (range_of (get (obj_at demo_requests 3%positive) "range"))
              (get (obj_at demo_requests 3%positive) "scopedVars")
              demo_requests) [VRef 1%positive]
  /\ exists e,
       query nat demo_replace no_format (demo_executor stream_empty)
         3%positive demo_requests = Throw e.
Proof.
  assert (Forall (allocated demo_requests) [VRef 1%positive]) as Hal.
  { constructor; [|constructor]. eexists. reflexivity. }
  assert (Exists (target_throws demo_replace no_format
                    (range_of (get (obj_at demo_requests 3%positive) "range"))
                    (get (obj_at demo_requests 3%positive) "scopedVars")
                    demo_requests) [VRef 1%positive]) as Hex.
  { apply Exists_cons_hd. eexists. vm_compute. reflexivity. }
  split; [reflexivity|]. split; [exact Hal|]. split; [exact Hex|].
  exact (query_throws_on_target nat demo_replace no_format
           (demo_executor stream_empty) 3%positive demo_requests
           [VRef 1%positive] eq_refl Hal Hex).
Defined.

Lemma metricFindQuery_executor_request_witness :
  (forall o, Some 2%positive = Some o -> is_Some (demo_variables !! o))
  /\ metricFindQuery_stream nat demo_replace no_format
       (demo_executor stream_two_frames) demo_table 1%positive
       (Some 2%positive) demo_variables = Ok stream_two_frames
  /\ exists l h' p,
       demo_variables ⊆ h'
       /\ obj_at h' l !! "targets" = Some (VArr [VRef p])
       /\ obj_at h' l !! "range" = Some (VRange tr2021)
       /\ obj_at h' p !! "refId" = Some (VStr (lit "metricFindQuery")).
Proof.
  assert (forall o, Some 2%positive = Some o -> is_Some (demo_variables !! o))
    as Hal.
  { intros o [= <-]. eexists. reflexivity. }
  split; [exact Hal|]. split; [reflexivity|].
  destruct (metricFindQuery_executor_request nat demo_replace no_format
              (demo_executor stream_two_frames) demo_table 1%positive
              (Some 2%positive) demo_variables stream_two_frames Hal eq_refl)
    as (l & h' & p & a & _ & Hsub & Hl & _ & _ & Hid).
  exists l, h', p. split; [exact Hsub|]. rewrite Hl.
  split; [reflexivity|]. split; [reflexivity|exact Hid].
Defined.

Lemma metricFindQuery_rejects_bad_aggregation_witness :
  (forall o, @None loc = Some o -> is_Some (demo_variables !! o))
  /\ replaceCustomFunctions no_format
       (substituted demo_replace (obj_at demo_variables 1%positive)
          (get (options_object demo_variables None) "scopedVars")
          "aggregation" true)
       (range_of (get (options_object demo_variables None) "range"))
     = Throw (TypeError (lit "Cannot read properties of undefined"))
  /\ metricFindQuery nat nat demo_replace no_format
       (demo_executor stream_two_frames) demo_frames demo_table 1%positive
       None demo_variables
     = Rejected (TypeError (lit "Cannot read properties of undefined")).
Proof.
  assert (forall o, @None loc = Some o -> is_Some (demo_variables !! o))
    as Hal by (intros o H; discriminate H).
  split; [exact Hal|]. split; [reflexivity|].
  exact (metricFindQuery_rejects_bad_aggregation nat nat demo_replace
           no_format (demo_executor stream_two_frames) demo_frames demo_table
           1%positive None demo_variables _ Hal eq_refl).
Defined.

Lemma metricFindQuery_needs_range_witness :
  (forall o, @None loc = Some o -> is_Some (demo_variables !! o))
  /\ range_of (get (options_object demo_variables None) "range") = None
  /\ substituted demo_replace (obj_at demo_variables 1%positive)
       (get (options_object demo_variables None) "scopedVars")
       "aggregation" true
     = lit "[{$match: {ts: " ++ macro_text [] TimeTo None [] ++ lit " }}]"
  /\ all_space [] = true
  /\ wf_spec None = true
  /\ no_match_before (length (lit "[{$match: {ts: "))
       (lit "[{$match: {ts: " ++ macro_text [] TimeTo None [] ++ lit " }}]")
     = true
  /\ exists msg,
       metricFindQuery nat nat demo_replace no_format
         (demo_executor stream_two_frames) demo_frames demo_table 1%positive
         None demo_variables
       = Rejected (TypeError msg).
Proof.
  assert (forall o, @None loc = Some o -> is_Some (demo_variables !! o))
    as Hal by (intros o H; discriminate H).
  split; [exact Hal|]. split; [reflexivity|]. split; [reflexivity|].
  split; [reflexivity|]. split; [reflexivity|]. split; [reflexivity|].
  exact (metricFindQuery_needs_range nat nat demo_replace no_format
           (demo_executor stream_two_frames) demo_frames demo_table
           1%positive None demo_variables (lit "[{$match: {ts: ") [] TimeTo
           None [] (lit " }}]") Hal eq_refl eq_refl eq_refl eq_refl eq_refl
           eq_refl).
Defined.

Lemma metricFindQuery_first_frame_witness :
  metricFindQuery_stream nat demo_replace no_format
    (demo_executor stream_two_frames) demo_table 1%positive
    (Some 2%positive) demo_variables = Ok stream_two_frames
  /\ ending stream_two_frames = Complete
  /\ emitted stream_two_frames
     = [rsp_error (lit "boom")]
       ++ [{| data := Some (7%nat :: [8%nat]); error := None |}]
  /\ metricFindQuery nat nat demo_replace no_format
       (demo_executor stream_two_frames) demo_frames demo_table 1%positive
       (Some 2%positive) demo_variables
     = Fulfilled [7%nat].
Proof.
  split; [reflexivity|]. split; [reflexivity|]. split; [reflexivity|].
  exact (metricFindQuery_first_frame nat nat demo_replace no_format
           (demo_executor stream_two_frames) demo_frames demo_table
           1%positive (Some 2%positive) demo_variables stream_two_frames
           [rsp_error (lit "boom")] 7%nat [8%nat] eq_refl eq_refl eq_refl).
Defined.

Lemma metricFindQuery_stream_failure_witness :
  metricFindQuery_stream nat demo_replace no_format
    (demo_executor stream_broken) demo_table 1%positive (Some 2%positive)
    demo_variables = Ok stream_broken
  /\ ending stream_broken = Errored (Error (lit "connection lost"))
  /\ metricFindQuery nat nat demo_replace no_format
       (demo_executor stream_broken) demo_frames demo_table 1%positive
       (Some 2%positive) demo_variables
     = Rejected (Error (lit "connection lost")).
Proof.
  split; [reflexivity|]. split; [reflexivity|].
  exact (proj1 (metricFindQuery_stream_failure nat nat demo_replace no_format
                  (demo_executor stream_broken) demo_frames demo_table
                  1%positive (Some 2%positive) demo_variables stream_broken
                  eq_refl)
           _ eq_refl).
Defined.
